(** * text-on-gif: a model of [src/textOnGif.ts] and of its types

    The class [TextOnGif] decodes the frames of a GIF, wraps a text into
    rows, draws the rows on every frame and hands the frames to a GIF
    encoder.  The canvas, the frame decoder and the encoder are external
    libraries: they appear here as interfaces (type classes), and the
    methods of the class are functions over an explicit instance state. *)

From Stdlib Require Import List String Ascii Bool ZArith QArith Lia.
Import ListNotations.
Close Scope Q_scope.
Open Scope string_scope.
Open Scope list_scope.

Set Implicit Arguments.

(* ------------------------------------------------------------------ *)
(** * JavaScript values used by the class *)

(** Arithmetic on JavaScript numbers (coordinates, widths, offsets).  The
    model never looks inside a number: it only builds the expressions the
    source builds. [nlit] is an integer literal or an array length. *)
Class JsNumber (num : Type) := {
  nadd : num -> num -> num;
  nsub : num -> num -> num;
  nmul : num -> num -> num;
  ndiv : num -> num -> num;
  ngt  : num -> num -> bool;
  nlit : Z -> num
}.

(** [s.split(" ")]: the pieces between single spaces; never empty. *)
Definition space : ascii := " "%char.

Fixpoint split (s : string) : list string :=
  match s with
  | EmptyString => [EmptyString]
  | String c s' =>
      if Ascii.eqb c space then EmptyString :: split s'
      else match split s' with
           | w :: ws => String c w :: ws
           | [] => [String c EmptyString]
           end
  end.

(** [a.join(" ")]. *)
Definition join (ws : list string) : string := String.concat " " ws.

(** A piece without a space in it. *)
Fixpoint spaceless (s : string) : Prop :=
  match s with
  | EmptyString => True
  | String c s' => Ascii.eqb c space = false /\ spaceless s'
  end.

Definition nonempty (w : string) : bool := negb (String.eqb w "").

(** The words of a text: its pieces that are not empty. *)
Definition words (s : string) : list string := filter nonempty (split s).

(** The outcome of a method that may throw. *)
Inductive Error : Type :=
| TypeError (msg : string)
| PlainError (msg : string).

Inductive result (A : Type) : Type :=
| Ok (a : A)
| Throw (e : Error).
Arguments Ok {A} a.
Arguments Throw {A} e.

Definition bind {A B} (r : result A) (k : A -> result B) : result B :=
  match r with
  | Ok a => k a
  | Throw e => Throw e
  end.

Notation "x <- r ;; k" := (bind r (fun x => k))
  (at level 61, r at next level, right associativity).

(* ------------------------------------------------------------------ *)
(** * The types of [types.d.ts] *)

Module AlignmentX.
Inductive t := left | center | right.
End AlignmentX.

Module AlignmentY.
Inductive t := top | middle | bottom.
End AlignmentY.

Module TextOptions.
Record t (num : Type) := mk {
  fontFamily : string;
  fontColor : string;
  strokeColor : string;
  fontSize : string;
  strokeWidth : num;
  alignmentX : AlignmentX.t;
  alignmentY : AlignmentY.t;
  offsetX : num;
  offsetY : num;
  positionX : option num;
  positionY : option num;
  rowGap : num;
  repeat : Z;
  retain : bool;
  transparent : bool
}.

(** The [options] argument of [setText]: any subset of the keys. *)
Record partial (num : Type) := mkPartial {
  fontFamily' : option string;
  fontColor' : option string;
  strokeColor' : option string;
  fontSize' : option string;
  strokeWidth' : option num;
  alignmentX' : option AlignmentX.t;
  alignmentY' : option AlignmentY.t;
  offsetX' : option num;
  offsetY' : option num;
  positionX' : option (option num);
  positionY' : option (option num);
  rowGap' : option num;
  repeat' : option Z;
  retain' : option bool;
  transparent' : option bool
}.

Definition pick {A} (o : option A) (d : A) : A :=
  match o with Some v => v | None => d end.

(** [Object.assign(target, options)]. *)
Definition assign {num} (target : t num) (o : partial num) : t num :=
  mk (pick (fontFamily' o) (fontFamily target))
     (pick (fontColor' o) (fontColor target))
     (pick (strokeColor' o) (strokeColor target))
     (pick (fontSize' o) (fontSize target))
     (pick (strokeWidth' o) (strokeWidth target))
     (pick (alignmentX' o) (alignmentX target))
     (pick (alignmentY' o) (alignmentY target))
     (pick (offsetX' o) (offsetX target))
     (pick (offsetY' o) (offsetY target))
     (pick (positionX' o) (positionX target))
     (pick (positionY' o) (positionY target))
     (pick (rowGap' o) (rowGap target))
     (pick (repeat' o) (repeat target))
     (pick (retain' o) (retain target))
     (pick (transparent' o) (transparent target)).
End TextOptions.

Module CanvasOptions.
Record t (num : Type) := mk {
  x : num;
  y : num;
  textAlign : string;
  textBaseline : string
}.
End CanvasOptions.

(** The interface [Row]. *)
Module TextRow.
Record t := mk { text : string }.
End TextRow.

(** [ExtractedFrame.imageData] is typed [any]: the extraction stores an
    [Image], the retain write-back stores an [ImageData]. *)
Inductive ImageSource (Image Pixels : Type) : Type :=
| AnImage (img : Image)
| AnImageData (data : Pixels).
Arguments AnImage {Image Pixels} img.
Arguments AnImageData {Image Pixels} data.

Module ExtractedFrame.
Record t (Image Pixels : Type) := mk {
  imageData : ImageSource Image Pixels;
  delay : Z;
  disposal : Z
}.
End ExtractedFrame.

(* ------------------------------------------------------------------ *)
(** * The external libraries *)

(** The drawing state of a [CanvasRenderingContext2D] that text drawing
    reads. *)
Module Style.
Record t (num : Type) := mk {
  strokeStyle : string;
  lineWidth : num;
  font : string;
  fillStyle : string;
  textAlign : string;
  textBaseline : string
}.
End Style.

(** node-canvas.  [Pixels] is the content of a whole surface, which is
    also what [getImageData(0, 0, width, height)] returns and what
    [putImageData(data, 0, 0)] writes back.  [blank w h] is the
    transparent surface that [createCanvas(w, h)] starts with and that
    [clearRect(0, 0, w, h)] restores.  [measureText font s] is
    [measureText(s).width] under [ctx.font = font].  [drawImage] is [None]
    when the call throws; the surface is then as it was. *)
Class Canvas (num Image Pixels : Type) := {
  blank : num -> num -> Pixels;
  measureText : string -> string -> num;
  drawImage : ImageSource Image Pixels -> Pixels -> option Pixels;
  strokeText : Style.t num -> string -> num -> num -> Pixels -> Pixels;
  fillText : Style.t num -> string -> num -> num -> Pixels -> Pixels
}.

(** gif-encoder-2, seen through the calls made on it. *)
Inductive EncoderCall (num Pixels : Type) : Type :=
| New (width height : num) (algorithm : string) (useOptimizer : bool)
      (totalFrames : nat)
| SetTransparent (b : bool)
| SetRepeat (n : Z)
| Start
| SetDelay (ms : Z)
| SetDispose (code : Z)
| AddFrame (px : Pixels)
| Finish.
Arguments New {num Pixels}.
Arguments SetTransparent {num Pixels}.
Arguments SetRepeat {num Pixels}.
Arguments Start {num Pixels}.
Arguments SetDelay {num Pixels}.
Arguments SetDispose {num Pixels}.
Arguments AddFrame {num Pixels}.
Arguments Finish {num Pixels}.

(** [encoder.out.getData()]: the bytes the encoder holds after the calls
    made so far; [None] stands for [null]. *)
Class Encoder (num Pixels Buffer : Type) := {
  getData : list (EncoderCall num Pixels) -> option Buffer
}.

(** gif-frames: one decoded frame.  [getImage] is [None] when writing the
    frame's image to its temporary file fails. *)
Module FrameData.
Record t (num Image : Type) := mk {
  width : num;
  height : num;
  delay : Z;
  disposal : Z;
  getImage : option Image
}.
End FrameData.

(** The events that the class emits of its own.  The [progress] events
    of the encoder, which lines 276-278 pass on, are not modelled. *)
Inductive Event : Type :=
| frameDataExtreacted
| extractionComplete
| frameIndexUpdate (index : nat)
| finished.

(** gif-frames: what decoding a source resolves to, or the error it
    rejects with. *)
Class GifFrames (Source num Image : Type) := {
  gifFrames : Source -> result (list (FrameData.t num Image))
}.

(** [writeStreamToFile(Readable.from(buffer), path)]: [false] when the
    stream reports an error and the promise rejects. *)
Class FileSystem (Buffer : Type) := {
  writeStreamToFile : Buffer -> string -> bool
}.

(* ------------------------------------------------------------------ *)
(** * The class [TextOnGif] *)

Section TextOnGif.

Context {Source num Image Pixels Buffer : Type}.
Context {NUM : JsNumber num}.
Context {CANVAS : Canvas num Image Pixels}.
Context {ENCODER : Encoder num Pixels Buffer}.
Context {DECODER : GifFrames Source num Image}.
Context {FS : FileSystem Buffer}.

Local Abbreviation Frame := (ExtractedFrame.t Image Pixels).
Local Abbreviation Call := (EncoderCall num Pixels).

(** The fields of an instance, with what it sent to [console.error] and
    the events it emitted. *)
Record TextOnGif := mkTextOnGif {
  source : Source;
  numberOfFrames : nat;
  retained : bool;
  extractedFrames : list Frame;
  width : num;
  height : num;
  text : string;
  textOptions : TextOptions.t num;
  buffer : option Buffer;
  canvasOptions : CanvasOptions.t num;
  rows : list TextRow.t;
  console : list Error;
  emitted : list Event
}.

Definition set_dimensions (w h : num) (n : nat) (this : TextOnGif) :=
  mkTextOnGif (source this) n (retained this) (extractedFrames this) w h
    (text this) (textOptions this) (buffer this) (canvasOptions this)
    (rows this) (console this) (emitted this).

Definition set_extractedFrames (fs : list Frame) (this : TextOnGif) :=
  mkTextOnGif (source this) (numberOfFrames this) (retained this) fs
    (width this) (height this) (text this) (textOptions this)
    (buffer this) (canvasOptions this) (rows this) (console this)
    (emitted this).

Definition set_text (s : string) (this : TextOnGif) :=
  mkTextOnGif (source this) (numberOfFrames this) (retained this)
    (extractedFrames this) (width this) (height this) s
    (textOptions this) (buffer this) (canvasOptions this) (rows this)
    (console this) (emitted this).

Definition set_textOptions (o : TextOptions.t num) (this : TextOnGif) :=
  mkTextOnGif (source this) (numberOfFrames this) (retained this)
    (extractedFrames this) (width this) (height this) (text this) o
    (buffer this) (canvasOptions this) (rows this) (console this)
    (emitted this).

Definition set_buffer (b : option Buffer) (this : TextOnGif) :=
  mkTextOnGif (source this) (numberOfFrames this) (retained this)
    (extractedFrames this) (width this) (height this) (text this)
    (textOptions this) b (canvasOptions this) (rows this) (console this)
    (emitted this).

Definition set_canvasOptions (c : CanvasOptions.t num) (this : TextOnGif) :=
  mkTextOnGif (source this) (numberOfFrames this) (retained this)
    (extractedFrames this) (width this) (height this) (text this)
    (textOptions this) (buffer this) c (rows this) (console this)
    (emitted this).

Definition set_rows (r : list TextRow.t) (this : TextOnGif) :=
  mkTextOnGif (source this) (numberOfFrames this) (retained this)
    (extractedFrames this) (width this) (height this) (text this)
    (textOptions this) (buffer this) (canvasOptions this) r
    (console this) (emitted this).

(** [console.error(err)]. *)
Definition console_error (e : Error) (this : TextOnGif) :=
  mkTextOnGif (source this) (numberOfFrames this) (retained this)
    (extractedFrames this) (width this) (height this) (text this)
    (textOptions this) (buffer this) (canvasOptions this) (rows this)
    (console this ++ [e]) (emitted this).

(** [this.emit(event)]. *)
Definition emit (ev : Event) (this : TextOnGif) :=
  mkTextOnGif (source this) (numberOfFrames this) (retained this)
    (extractedFrames this) (width this) (height this) (text this)
    (textOptions this) (buffer this) (canvasOptions this) (rows this)
    (console this) (emitted this ++ [ev]).

(** The field initialisers and the constructor. *)
Definition defaultTextOptions : TextOptions.t num :=
  TextOptions.mk "calibri" "white" "transparent" "32px" (nlit 1)
    AlignmentX.center AlignmentY.bottom (nlit 10) (nlit 10) None None
    (nlit 5) 0%Z false false.

Definition defaultCanvasOptions : CanvasOptions.t num :=
  CanvasOptions.mk (nlit 0) (nlit 0) "start" "bottom".

Definition new (gifSource : Source) : TextOnGif :=
  mkTextOnGif gifSource 0 false [] (nlit 0) (nlit 0) "Hello World!"
    defaultTextOptions None defaultCanvasOptions [] [] [].

(** ** [#extractFrames] *)

(** One turn of the loop over the decoded frames: the frame is stored
    with its delay in milliseconds, or the error is logged. *)
Definition extractFrame (this : TextOnGif) (frame : FrameData.t num Image)
  : TextOnGif :=
  match FrameData.getImage frame with
  | Some img =>
      set_extractedFrames
        (extractedFrames this ++
           [ExtractedFrame.mk (AnImage img) (FrameData.delay frame * 10)
              (FrameData.disposal frame)])
        this
  | None => console_error (PlainError "write failed") this
  end.

Definition extractFrames (this : TextOnGif) : result TextOnGif :=
  frameData <- gifFrames (source this) ;;
  match frameData with
  | [] => Throw (TypeError "Cannot read properties of undefined")
  | first :: _ =>
      let this :=
        set_dimensions (FrameData.width first) (FrameData.height first)
          (List.length frameData) this in
      let this := emit frameDataExtreacted this in
      let this := fold_left extractFrame frameData this in
      Ok (emit extractionComplete this)
  end.

(** ** [setText] *)
Definition setText (txt : string)
    (options : option (TextOptions.partial num)) (this : TextOnGif)
  : result TextOnGif :=
  let this :=
    match options with
    | Some o => set_textOptions (TextOptions.assign (textOptions this) o) this
    | None => this
    end in
  let this := set_text txt this in
  let this := set_rows [] this in
  extractFrames this.

(** ** [createTextRows] *)

(** One turn of the loop over the words, on [previewText], [lineText]
    and [this.rows]; [font] is [ctx.font]. *)
Definition wrapWord (font : string) (maxWidth : num)
    (st : list string * list string * list TextRow.t) (word : string)
  : list string * list string * list TextRow.t :=
  let '(previewText, lineText, rs) := st in
  let previewText := previewText ++ [word] in
  if ngt (measureText font (join previewText)) maxWidth
  then ([word], [] ++ [word], rs ++ [TextRow.mk (join lineText)])
  else (previewText, lineText ++ [word], rs).

Definition createTextRows (font : string) (this : TextOnGif) : TextOnGif :=
  let '(_, lineText, rs) :=
    fold_left (wrapWord font (width this)) (split (text this))
      ([], [], rows this) in
  set_rows (rs ++ [TextRow.mk (join lineText)]) this.

(** ** [#renderGIF] *)

(** [==] and [!=] between a disposal code and a literal: [a != b] is
    [!(a == b)]. *)
Definition loose_eq (a b : Z) : bool := Z.eqb a b.
Definition loose_ne (a b : Z) : bool := negb (loose_eq a b).

(** [for (let i = from; i < from + count; i++) body], stopping at the
    first throw. *)
Fixpoint for_loop {S : Type} (from count : nat)
    (body : nat -> S -> result S) (s : S) : result S :=
  match count with
  | O => Ok s
  | Datatypes.S k => s' <- body from s ;; for_loop (Datatypes.S from) k body s'
  end.

(** [array[index]], which is [undefined] out of range; reading a
    property of it then throws. *)
Definition at_index {A : Type} (l : list A) (index : nat) : result A :=
  match nth_error l index with
  | Some a => Ok a
  | None => Throw (TypeError "Cannot read properties of undefined")
  end.

(** [array[index] = a] for an [index] in range. *)
Fixpoint assign_index {A : Type} (l : list A) (index : nat) (a : A) : list A :=
  match l, index with
  | [], _ => []
  | _ :: l', O => a :: l'
  | b :: l', Datatypes.S k => b :: assign_index l' k a
  end.

(** The style of a fresh context. *)
Definition defaultStyle : Style.t num :=
  Style.mk "#000000" (nlit 1) "10px sans-serif" "#000000" "start"
    "alphabetic".

(** [fontSize + " " + fontFamily]. *)
Definition fontOf (o : TextOptions.t num) : string :=
  (TextOptions.fontSize o ++ " " ++ TextOptions.fontFamily o)%string.

(** The horizontal part of the anchor (lines 283-300). *)
Definition anchorX (this : TextOnGif) : TextOnGif :=
  let o := textOptions this in
  let c := canvasOptions this in
  match TextOptions.positionX o with
  | Some positionX =>
      set_canvasOptions
        (CanvasOptions.mk positionX (CanvasOptions.y c) "start"
           (CanvasOptions.textBaseline c)) this
  | None =>
      match TextOptions.alignmentX o with
      | AlignmentX.right =>
          set_canvasOptions
            (CanvasOptions.mk (nsub (width this) (TextOptions.offsetX o))
               (CanvasOptions.y c) "right" (CanvasOptions.textBaseline c))
            this
      | AlignmentX.left =>
          set_canvasOptions
            (CanvasOptions.mk (TextOptions.offsetX o) (CanvasOptions.y c)
               "left" (CanvasOptions.textBaseline c)) this
      | AlignmentX.center =>
          set_canvasOptions
            (CanvasOptions.mk (ndiv (width this) (nlit 2))
               (CanvasOptions.y c) "center" (CanvasOptions.textBaseline c))
            this
      end
  end.

(** The vertical part of the anchor (lines 301-342). *)
Definition anchorY (approximateLineHeight : num) (this : TextOnGif)
  : TextOnGif :=
  let o := textOptions this in
  let c := canvasOptions this in
  let count := nlit (Z.of_nat (List.length (rows this))) in
  let put (baseline : string) (y : num) :=
    set_canvasOptions
      (CanvasOptions.mk (CanvasOptions.x c) y (CanvasOptions.textAlign c)
         baseline) this in
  match TextOptions.positionY o with
  | Some positionY => put "top" positionY
  | None =>
      if Nat.eqb (List.length (rows this)) 1 then
        match TextOptions.alignmentY o with
        | AlignmentY.top => put "hanging" (TextOptions.offsetY o)
        | AlignmentY.middle => put "middle" (ndiv (height this) (nlit 2))
        | AlignmentY.bottom =>
            put "bottom" (nsub (height this) (TextOptions.offsetY o))
        end
      else
        match TextOptions.alignmentY o with
        | AlignmentY.top => put "hanging" (TextOptions.offsetY o)
        | AlignmentY.middle =>
            put "top"
              (ndiv
                 (nsub (height this)
                    (nadd (nmul count approximateLineHeight)
                       (nmul (nsub count (nlit 1)) (TextOptions.rowGap o))))
                 (nlit 2))
        | AlignmentY.bottom =>
            put "bottom"
              (nsub (height this)
                 (nadd
                    (nmul (nsub count (nlit 1))
                       (nadd approximateLineHeight (TextOptions.rowGap o)))
                    (TextOptions.offsetY o)))
        end
  end.

(** The style set on the context at the start of every frame
    (lines 358-363). *)
Definition frameStyle (this : TextOnGif) : Style.t num :=
  let o := textOptions this in
  Style.mk (TextOptions.strokeColor o) (TextOptions.strokeWidth o)
    (fontOf o) (TextOptions.fontColor o)
    (CanvasOptions.textAlign (canvasOptions this))
    (CanvasOptions.textBaseline (canvasOptions this)).

(** A call that draws text on the context. *)
Inductive DrawCall : Type :=
| StrokeText (st : Style.t num) (s : string) (x y : num)
| FillText (st : Style.t num) (s : string) (x y : num).

Definition perform (px : Pixels) (c : DrawCall) : Pixels :=
  match c with
  | StrokeText st s x y => strokeText st s x y px
  | FillText st s x y => fillText st s x y px
  end.

(** One turn of the loop over the reversed rows (lines 378-384). *)
Definition drawRow (this : TextOnGif) (approximateLineHeight : num)
    (reverseRows : list TextRow.t) (rowIndex : nat) (calls : list DrawCall)
  : result (list DrawCall) :=
  row <- at_index reverseRows rowIndex ;;
  let lineText := TextRow.text row in
  let c := canvasOptions this in
  let st := frameStyle this in
  let y :=
    nsub (CanvasOptions.y c)
      (nmul (nlit (Z.of_nat rowIndex))
         (nadd approximateLineHeight
            (TextOptions.rowGap (textOptions this)))) in
  Ok (calls ++ [StrokeText st lineText (CanvasOptions.x c) y;
                FillText st lineText (CanvasOptions.x c) y]).

(** The text drawing of a frame (lines 373-385), as the calls it makes. *)
Definition drawText (this : TextOnGif) (approximateLineHeight : num)
  : result (list DrawCall) :=
  let c := canvasOptions this in
  let st := frameStyle this in
  if Nat.eqb (List.length (rows this)) 1 then
    Ok [StrokeText st (text this) (CanvasOptions.x c) (CanvasOptions.y c);
        FillText st (text this) (CanvasOptions.x c) (CanvasOptions.y c)]
  else
    let reverseRows := rev (rows this) in
    for_loop 0 (List.length (rows this))
      (drawRow this approximateLineHeight reverseRows) [].

(** What the loop over the frames carries: the instance, the pixels of
    the canvas and the calls made on the encoder. *)
Record Render := mkRender {
  self : TextOnGif;
  surface : Pixels;
  encoder : list Call
}.

(** [ctx.putImageData(imageData, 0, 0)] with a stored frame: throws for
    what is not an [ImageData]. *)
Definition putImageData (d : ImageSource Image Pixels) : option Pixels :=
  match d with
  | AnImageData data => Some data
  | AnImage _ => None
  end.

(** The call inside the [try] block of lines 347-356; [None] when it
    throws. *)
Definition paintAttempt (this : TextOnGif) (frame : Frame) (px : Pixels)
  : option Pixels :=
  if negb (retained this)
  then drawImage (ExtractedFrame.imageData frame) px
  else putImageData (ExtractedFrame.imageData frame).

(** Lines 347-356: the frame is painted, and whatever the [try] block
    throws is dropped by the empty [catch]. *)
Definition paintFrame (this : TextOnGif) (index : nat) (px : Pixels)
  : Pixels :=
  match nth_error (extractedFrames this) index with
  | None => px
  | Some frame =>
      match paintAttempt this frame px with
      | Some px' => px'
      | None => px
      end
  end.

(** Lines 365-371: [withoutText] is assigned when the disposal is not 2. *)
Definition takeSnapshot (this : TextOnGif) (index : nat) (px : Pixels)
  : result (option Pixels) :=
  frame <- at_index (extractedFrames this) index ;;
  Ok (if loose_ne (ExtractedFrame.disposal frame) 2 then Some px else None).

(** Lines 387-389. *)
Definition commit (this : TextOnGif) (index : nat) (px : Pixels)
    (enc : list Call) : result (list Call) :=
  f1 <- at_index (extractedFrames this) index ;;
  let enc := enc ++ [SetDelay (ExtractedFrame.delay f1)] in
  f2 <- at_index (extractedFrames this) index ;;
  let enc := enc ++ [SetDispose (ExtractedFrame.disposal f2)] in
  Ok (enc ++ [AddFrame px]).

(** Lines 391-397. *)
Definition retainFrame (this : TextOnGif) (index : nat) (px : Pixels)
  : result TextOnGif :=
  if TextOptions.retain (textOptions this) then
    frame <- at_index (extractedFrames this) index ;;
    Ok (set_extractedFrames
          (assign_index (extractedFrames this) index
             (ExtractedFrame.mk (AnImageData px)
                (ExtractedFrame.delay frame)
                (ExtractedFrame.disposal frame)))
          this)
  else Ok this.

(** Lines 399-403: [withoutText!] is [undefined] when it was never
    assigned, and [putImageData(undefined, 0, 0)] throws. *)
Definition restoreBackground (this : TextOnGif) (index : nat)
    (withoutText : option Pixels) : result Pixels :=
  frame <- at_index (extractedFrames this) index ;;
  if loose_eq (ExtractedFrame.disposal frame) 2 then
    Ok (blank (width this) (height this))
  else
    match withoutText with
    | Some data => Ok data
    | None => Throw (TypeError "Image data expected")
    end.

(** Line 367. *)
Definition ensureRows (this : TextOnGif) : TextOnGif :=
  if Nat.eqb (List.length (rows this)) 0
  then createTextRows (fontOf (textOptions this)) this
  else this.

(** The body of the loop over the frames (lines 345-403). *)
Definition renderFrame (approximateLineHeight : num) (index : nat)
    (r : Render) : result Render :=
  let this := emit (frameIndexUpdate index) (self r) in
  let px := paintFrame this index (surface r) in
  let this := ensureRows this in
  withoutText <- takeSnapshot this index px ;;
  calls <- drawText this approximateLineHeight ;;
  let px' := fold_left perform calls px in
  enc <- commit this index px' (encoder r) ;;
  this <- retainFrame this index px' ;;
  px'' <- restoreBackground this index withoutText ;;
  Ok (mkRender this px'' enc).

(** The calls on the encoder before the first frame (lines 256-274). *)
Definition openEncoder (this : TextOnGif) : list Call :=
  let enc :=
    [New (width this) (height this) "neuquant" false
       (List.length (extractedFrames this))] in
  let enc :=
    if TextOptions.transparent (textOptions this)
    then enc ++ [SetTransparent true] else enc in
  let enc := enc ++ [SetRepeat (TextOptions.repeat (textOptions this))] in
  enc ++ [Start].

(** Lines 256-406: everything up to and with [encoder.finish()].  The
    bound of the loop is read once: no turn changes the number of stored
    frames. *)
Definition encodeFrames (txt : string) (this : TextOnGif) : result Render :=
  let enc := openEncoder this in
  let px := blank (width this) (height this) in
  let font := fontOf (textOptions this) in
  let approximateLineHeight := measureText font "M" in
  let this := createTextRows font this in
  let this := anchorX this in
  let this := anchorY approximateLineHeight this in
  r <- for_loop 0 (List.length (extractedFrames this))
         (renderFrame approximateLineHeight) (mkRender this px enc) ;;
  Ok (mkRender (self r) (surface r) (encoder r ++ [Finish])).

Definition renderGIF (txt : string) (this : TextOnGif) : result TextOnGif :=
  r <- encodeFrames txt this ;;
  let this := set_buffer (getData (encoder r)) (self r) in
  Ok (emit finished this).

(** ** [toFile] and [toBuffer] *)

(** [if (this.buffer)] holds for every buffer object, also for one of
    length 0; it fails for [null] only. *)
Definition toFile (filePath : string) (this : TextOnGif)
  : result (bool * TextOnGif) :=
  this <- renderGIF (text this) this ;;
  match buffer this with
  | Some b =>
      if writeStreamToFile b filePath then Ok (true, this)
      else Throw (PlainError "write failed")
  | None => Throw (PlainError "Result GIF buffer returned empty")
  end.

Definition toBuffer (this : TextOnGif) : result (option Buffer * TextOnGif) :=
  this <- renderGIF (text this) this ;;
  Ok (buffer this, this).

(** ** Vocabulary of the statements *)

(** The row that a committed line becomes. *)
Definition rowOf (line : list string) : TextRow.t := TextRow.mk (join line).

(** The stroke and the fill of one text at one place. *)
Definition strokeAndFill (st : Style.t num) (s : string) (x y : num)
  : list DrawCall :=
  [StrokeText st s x y; FillText st s x y].

(** The height at which the row of index [rowIndex] of the reversed rows
    is drawn: [canvasOptions.y - rowIndex * (approximateLineHeight +
    rowGap)]. *)
Definition rowY (this : TextOnGif) (approximateLineHeight : num)
    (rowIndex : nat) : num :=
  nsub (CanvasOptions.y (canvasOptions this))
    (nmul (nlit (Z.of_nat rowIndex))
       (nadd approximateLineHeight (TextOptions.rowGap (textOptions this)))).

(** The calls that draw one row. *)
Definition rowCalls (this : TextOnGif) (approximateLineHeight : num)
    (place : nat * TextRow.t) : list DrawCall :=
  strokeAndFill (frameStyle this) (TextRow.text (snd place))
    (CanvasOptions.x (canvasOptions this))
    (rowY this approximateLineHeight (fst place)).

(** What a stored frame tells the encoder besides its pixels. *)
Definition timing (f : Frame) : Z * Z :=
  (ExtractedFrame.delay f, ExtractedFrame.disposal f).

(** The calls that hand one frame to the encoder. *)
Definition frameCalls (handed : Frame * Pixels) : list Call :=
  [SetDelay (ExtractedFrame.delay (fst handed));
   SetDispose (ExtractedFrame.disposal (fst handed));
   AddFrame (snd handed)].

(** What a frame of the loop leaves as it was: all but the rows, the
    events and the pixels stored with the frames. *)
Definition keeps_settings (a b : TextOnGif) : Prop :=
  width b = width a /\
  height b = height a /\
  text b = text a /\
  textOptions b = textOptions a /\
  canvasOptions b = canvasOptions a /\
  retained b = retained a /\
  console b = console a /\
  map timing (extractedFrames b) = map timing (extractedFrames a).

Definition isFinish (c : Call) : bool :=
  match c with
  | Finish => true
  | _ => false
  end.

Definition isStroke (c : DrawCall) : bool :=
  match c with
  | StrokeText _ _ _ _ => true
  | FillText _ _ _ _ => false
  end.

(** ** [noOfFrames] *)

(** What an [async] getter gives: a value at once, or a promise that a
    listener of an event resolves by reading the instance when the event
    is emitted. *)
Inductive Awaited (A : Type) : Type :=
| Resolved (a : A)
| OnEvent (ev : Event) (read : TextOnGif -> A).

(** [if (this.numberOfFrames)] fails for 0 only. *)
Definition noOfFrames (this : TextOnGif) : Awaited nat :=
  if negb (Nat.eqb (numberOfFrames this) 0)
  then Resolved (numberOfFrames this)
  else OnEvent frameDataExtreacted numberOfFrames.

(** ** Vocabulary of further statements *)

(** The loop of [createTextRows] as a recursion on the words left, [cur]
    being the line under way: the lines it commits, the last one
    included. *)
Fixpoint wrapLines (font : string) (maxWidth : num) (ws cur : list string)
  : list (list string) :=
  match ws with
  | [] => [cur]
  | word :: ws' =>
      if ngt (measureText font (join (cur ++ [word]))) maxWidth
      then cur :: wrapLines font maxWidth ws' [word]
      else wrapLines font maxWidth ws' (cur ++ [word])
  end.

(** A line that was measured and found not wider than the canvas, or
    that has one word at most. *)
Definition fitsOrSingle (font : string) (maxWidth : num)
    (line : list string) : Prop :=
  ngt (measureText font (join line)) maxWidth = false \/
  List.length line <= 1.

(** Every line but the last is followed by a line whose first word did
    not fit after it. *)
Fixpoint breaksNeeded (font : string) (maxWidth : num)
    (lines : list (list string)) : Prop :=
  match lines with
  | [] => True
  | line :: rest =>
      match rest with
      | [] => True
      | next :: _ =>
          (exists word more,
             next = word :: more /\
             ngt (measureText font (join (line ++ [word]))) maxWidth = true)
          /\ breaksNeeded font maxWidth rest
      end
  end.

(** What [#extractFrames] stores for a decoded frame, and what it logs. *)
Definition stored (d : FrameData.t num Image) : list Frame :=
  match FrameData.getImage d with
  | Some img =>
      [ExtractedFrame.mk (AnImage img) (FrameData.delay d * 10)
         (FrameData.disposal d)]
  | None => []
  end.

Definition logged (d : FrameData.t num Image) : list Error :=
  match FrameData.getImage d with
  | Some _ => []
  | None => [PlainError "write failed"]
  end.

(** A stored frame after the retain write-back of the pixels handed to
    the encoder. *)
Definition writtenBack (handed : Frame * Pixels) : Frame :=
  ExtractedFrame.mk (AnImageData (snd handed))
    (ExtractedFrame.delay (fst handed))
    (ExtractedFrame.disposal (fst handed)).

Definition isAddFrame (c : Call) : bool :=
  match c with
  | AddFrame _ => true
  | _ => false
  end.

(** The instances that the constructor and the public methods lead to,
    as long as no method throws. *)
Inductive reachable : TextOnGif -> Prop :=
| reach_new (gifSource : Source) : reachable (new gifSource)
| reach_setText (this this' : TextOnGif) (txt : string)
    (options : option (TextOptions.partial num)) :
    reachable this -> setText txt options this = Ok this' -> reachable this'
| reach_toBuffer (this this' : TextOnGif) (b : option Buffer) :
    reachable this -> toBuffer this = Ok (b, this') -> reachable this'
| reach_toFile (this this' : TextOnGif) (filePath : string) (done : bool) :
    reachable this -> toFile filePath this = Ok (done, this') ->
    reachable this'.

(** The surface once a stored frame was painted on it: as it was when
    the painting throws (lines 347-356). *)
Definition paintedOver (this : TextOnGif) (frame : Frame) (surf : Pixels)
  : Pixels :=
  match paintAttempt this frame surf with
  | Some px => px
  | None => surf
  end.

(** The loop over the frames as a recursion on the frames left, from the
    surface [surf] and with the text drawn by [calls]: each frame is
    painted over the surface, the text is drawn on it and that is what
    the encoder gets for the frame; the next frame starts from a blank
    surface after a disposal of 2 and from the painted frame without the
    text otherwise.  The result is the pixels handed to the encoder,
    frame after frame, and the surface left at the end. *)
Fixpoint composite (this : TextOnGif) (calls : list DrawCall)
    (surf : Pixels) (frames : list Frame) : list Pixels * Pixels :=
  match frames with
  | [] => ([], surf)
  | frame :: rest =>
      let painted := paintedOver this frame surf in
      let next :=
        if loose_eq (ExtractedFrame.disposal frame) 2
        then blank (width this) (height this)
        else painted in
      let '(pxs, final) := composite this calls next rest in
      (fold_left perform calls painted :: pxs, final)
  end.

End TextOnGif.

(* ------------------------------------------------------------------ *)
(** * A concrete canvas, decoder and encoder

    Numbers are rationals, the pixels of a surface are the list of what
    was painted on it since it was blank, every character is 10 pixels
    wide, and the bytes of an encoded GIF are the calls that the encoder
    received. *)

Module Sample.

#[global] Instance rational : JsNumber Q := {
  nadd := Qplus;
  nsub := Qminus;
  nmul := Qmult;
  ndiv := Qdiv;
  ngt := fun a b => negb (Qle_bool a b);
  nlit := inject_Z
}.

Inductive Paint : Type :=
| PaintImage (id : nat)
| PaintStroke (st : Style.t Q) (s : string) (x y : Q)
| PaintFill (st : Style.t Q) (s : string) (x y : Q).

Definition Pixels : Type := list Paint.

(** Images are numbered; image 0 cannot be drawn, and neither can an
    [ImageData]. *)
#[global] Instance canvas : Canvas Q nat Pixels := {
  blank := fun _ _ => [];
  measureText := fun _ s => inject_Z (10 * Z.of_nat (String.length s));
  drawImage := fun src px =>
    match src with
    | AnImage (S id) => Some (px ++ [PaintImage (S id)])
    | AnImage O => None
    | AnImageData _ => None
    end;
  strokeText := fun st s x y px => px ++ [PaintStroke st s x y];
  fillText := fun st s x y px => px ++ [PaintFill st s x y]
}.

Definition Buffer : Type := list (EncoderCall Q Pixels).

(** An encoder whose output is the calls it received. *)
Definition recording : Encoder Q Pixels Buffer := {| getData := Some |}.


(** The source is the list of its decoded frames. *)
Definition Source : Type := list (FrameData.t Q nat).

#[global] Instance decoder : GifFrames Source Q nat := {
  gifFrames := fun src => Ok src
}.

#[global] Instance disk : FileSystem Buffer := {
  writeStreamToFile := fun _ _ => true
}.

Definition Gif : Type := @TextOnGif Source Q nat Pixels Buffer.

(** A frame of 100 x 50 pixels. *)
Definition frame (delay disposal : Z) (img : option nat) : FrameData.t Q nat :=
  FrameData.mk (inject_Z 100) (inject_Z 50) delay disposal img.

(** [new TextOnGif(src).setText(txt)]. *)
Definition configured (src : Source) (txt : string) : result Gif :=
  setText txt None (new src).

(** What the instance is turned into when all goes well. *)
Definition get (r : result Gif) : Gif :=
  match r with
  | Ok g => g
  | Throw _ => new []
  end.

(** One frame, the text on one row. *)
Definition oneFrame : Gif :=
  get (configured [frame 10 1 (Some 1%nat)] "Hi").

(** Three frames of which the second cannot be drawn, the text on
    three rows. *)
Definition threeFrames : Gif :=
  get (configured
         [frame 10 1 (Some 1%nat); frame 15 2 (Some 0%nat);
          frame 10 1 (Some 3%nat)]
         "aaaaaa bbbbbb cccccc").

(** One frame, an empty text. *)
Definition emptyText : Gif :=
  get (configured [frame 10 1 (Some 1%nat)] "").

(** One frame, a first word wider than the frame. *)
Definition wideWord : Gif :=
  get (configured [frame 10 1 (Some 1%nat)] "abcdefghijklmnop q").

(** The height of the reference glyph. *)
Definition lineHeight : Q := measureText "32px calibri" "M".

(** The loop of a render at its start (lines 256-342). *)
Definition atLoop (g : Gif) : @Render Source Q nat Pixels Buffer :=
  let this :=
    anchorY lineHeight (anchorX (createTextRows "32px calibri" g)) in
  mkRender this (blank (width g) (height g)) (openEncoder g).

(** How much was painted on the frames that an encoder received. *)
Definition paints (b : Buffer) : nat :=
  fold_left
    (fun n c => match c with
                | AddFrame px => n + List.length px
                | _ => n
                end) b 0.

(** One frame, the text on one row, the retain option set. *)
Definition retaining : Gif :=
  get (setText "Hi"
         (Some (TextOptions.mkPartial None None None None None None None None
                  None None None None None (Some true) None))
         (new [frame 10 1 (Some 1%nat)])).

(** One frame, the text at an explicit place. *)
Definition placed : Gif :=
  get (setText "Hi"
         (Some (TextOptions.mkPartial None None None None None None None None
                  None (Some (Some (inject_Z 7))) (Some (Some (inject_Z 9)))
                  None None None None))
         (new [frame 10 1 (Some 1%nat)])).

(** A decoder that cannot read its source. *)
Definition unreadable : GifFrames Source Q nat :=
  {| gifFrames := fun _ => Throw (PlainError "unreadable") |}.

(** Three decoded frames of which the second could not be written. *)
Definition holed : Source :=
  [frame 10 1 (Some 1%nat); frame 15 2 None; frame 10 1 (Some 3%nat)].

(** A canvas like [canvas] on which a stroke with the style
    ["transparent"] leaves the pixels as they are. *)
Definition clearStroke : Canvas Q nat Pixels := {|
  blank := fun _ _ => [];
  measureText := fun _ s => inject_Z (10 * Z.of_nat (String.length s));
  drawImage := fun src px =>
    match src with
    | AnImage (S id) => Some (px ++ [PaintImage (S id)])
    | AnImage O => None
    | AnImageData _ => None
    end;
  strokeText := fun st s x y px =>
    if String.eqb (Style.strokeStyle st) "transparent" then px
    else px ++ [PaintStroke st s x y];
  fillText := fun st s x y px => px ++ [PaintFill st s x y]
|}.

End Sample.

(* ------------------------------------------------------------------ *)
(** * Splitting and joining *)

Unset Implicit Arguments.

Lemma split_not_nil (s : string) : split s <> [].
Proof.
  destruct s as [|c s]; simpl; [discriminate|].
  destruct (Ascii.eqb c space); [discriminate|].
  destruct (split s); discriminate.
Qed.

Lemma split_spaceless (s : string) : Forall spaceless (split s).
Proof.
  induction s as [|c s IH]; simpl.
  - repeat constructor.
  - destruct (Ascii.eqb c space) eqn:E.
    + constructor; [exact I | exact IH].
    + destruct (split s) as [|w ws].
      * repeat constructor; assumption.
      * inversion IH; subst. constructor; [simpl; auto | assumption].
Qed.

Lemma split_word (w : string) : spaceless w -> split w = [w].
Proof.
  induction w as [|c w IH]; simpl; [reflexivity|].
  intros [Hc Hw]. rewrite Hc, (IH Hw). reflexivity.
Qed.

Lemma split_word_space (w rest : string) :
  spaceless w -> split (w ++ String space rest)%string = w :: split rest.
Proof.
  induction w as [|c w IH]; simpl.
  - reflexivity.
  - intros [Hc Hw]. rewrite Hc, (IH Hw). reflexivity.
Qed.

Lemma split_join (w : string) (ws : list string) :
  Forall spaceless (w :: ws) -> split (join (w :: ws)) = w :: ws.
Proof.
  revert w. induction ws as [|v ws IH]; intros w H.
  - inversion H; subst. apply split_word; assumption.
  - inversion H as [|? ? Hw Hrest]; subst.
    change (join (w :: v :: ws))
      with (w ++ String space (join (v :: ws)))%string.
    rewrite split_word_space by assumption.
    f_equal. apply IH; assumption.
Qed.

Lemma words_join (l : list string) :
  Forall spaceless l -> words (join l) = filter nonempty l.
Proof.
  destruct l as [|w ws]; intros H.
  - reflexivity.
  - unfold words. rewrite split_join by assumption. reflexivity.
Qed.

Lemma filter_concat {A : Type} (f : A -> bool) (ls : list (list A)) :
  filter f (List.concat ls) = flat_map (filter f) ls.
Proof.
  induction ls as [|l ls IH]; simpl; [reflexivity|].
  rewrite filter_app, IH. reflexivity.
Qed.

Lemma Forall_concat_inv {A : Type} (P : A -> Prop) (ls : list (list A)) :
  Forall P (List.concat ls) -> Forall (Forall P) ls.
Proof.
  induction ls as [|l ls IH]; simpl; intros H; constructor.
  - apply Forall_app in H. tauto.
  - apply IH. apply Forall_app in H. tauto.
Qed.

(* ------------------------------------------------------------------ *)
(** * Properties of the class *)

Section Properties.

Context {Source num Image Pixels Buffer : Type}.
Context {NUM : JsNumber num}.
Context {CANVAS : Canvas num Image Pixels}.
Context {ENCODER : Encoder num Pixels Buffer}.
Context {DECODER : GifFrames Source num Image}.
Context {FS : FileSystem Buffer}.

Local Abbreviation Gif := (@TextOnGif Source num Image Pixels Buffer).
Local Abbreviation Loop := (@Render Source num Image Pixels Buffer).
Local Abbreviation Frame := (ExtractedFrame.t Image Pixels).

(** ** Text wrapping *)

(** The loop of [createTextRows] cuts the words it has seen into lines,
    one per row pushed, the words after the last cut being [lineText]. *)
Lemma wrapWord_lines (font : string) (maxWidth : num) (ws : list string) :
  forall previewText lineText rs previewText' lineText' rs',
    fold_left (wrapWord font maxWidth) ws (previewText, lineText, rs)
      = (previewText', lineText', rs') ->
    exists lines,
      rs' = rs ++ map rowOf lines /\
      List.concat lines ++ lineText' = lineText ++ ws.
Proof.
  induction ws as [|w ws IH]; simpl; intros pv line rs pv' line' rs' E.
  - inversion E; subst. exists []. simpl.
    rewrite !app_nil_r. split; reflexivity.
  - destruct (ngt (measureText font (join (pv ++ [w]))) maxWidth).
    + apply IH in E. destruct E as [lines [E1 E2]].
      exists (line :: lines). simpl. split.
      * rewrite E1, <- app_assoc. reflexivity.
      * rewrite <- app_assoc, E2. reflexivity.
    + apply IH in E. destruct E as [lines [E1 E2]].
      exists lines. split; [assumption|].
      rewrite E2, <- app_assoc. reflexivity.
Qed.

(** [createTextRows] pushes the rows of a cutting of [text.split(" ")]
    into lines after the rows that were there. *)
Lemma createTextRows_lines (font : string) (this : Gif) :
  exists lines,
    rows (createTextRows font this) = rows this ++ map rowOf lines /\
    List.concat lines = split (text this) /\
    lines <> [].
Proof.
  unfold createTextRows.
  destruct (fold_left (wrapWord font (width this)) (split (text this))
              ([], [], rows this)) as [[pv line] rs] eqn:E.
  apply wrapWord_lines in E. destruct E as [lines [E1 E2]].
  exists (lines ++ [line]). simpl. repeat split.
  - rewrite E1, map_app, <- app_assoc. reflexivity.
  - rewrite concat_app. simpl. rewrite app_nil_r. exact E2.
  - destruct lines; discriminate.
Qed.

Lemma createTextRows_fields (font : string) (this : Gif) :
  extractedFrames (createTextRows font this) = extractedFrames this /\
  textOptions (createTextRows font this) = textOptions this /\
  canvasOptions (createTextRows font this) = canvasOptions this /\
  width (createTextRows font this) = width this /\
  height (createTextRows font this) = height this /\
  text (createTextRows font this) = text this /\
  retained (createTextRows font this) = retained this /\
  console (createTextRows font this) = console this.
Proof.
  unfold createTextRows.
  destruct (fold_left _ _ _) as [[pv line] rs]. simpl. tauto.
Qed.

(** C4. Wrapping keeps the words.  The rows that [createTextRows] makes
    of a text are the lines of a cutting of [text.split(" ")], joined
    with spaces: the lines put end to end are that sequence.  And the
    words of the rows, taken row after row, are the words of the text in
    the same order; none is dropped, repeated, cut or moved. *)
Theorem createTextRows_keeps_words (font : string) (this : Gif) :
  rows this = [] ->
  (exists lines,
     rows (createTextRows font this) = map rowOf lines /\
     List.concat lines = split (text this)) /\
  flat_map (fun row => words (TextRow.text row)) (rows (createTextRows font this))
    = words (text this).
Proof.
  intros Hfresh.
  destruct (createTextRows_lines font this) as [lines [E1 [E2 _]]].
  rewrite Hfresh in E1. simpl in E1. split.
  - exists lines. split; assumption.
  - rewrite E1.
    assert (Hsp : Forall (Forall spaceless) lines).
    { apply Forall_concat_inv. rewrite E2. apply split_spaceless. }
    unfold words at 2. rewrite <- E2, filter_concat.
    clear E1 E2. induction Hsp as [|l ls Hl _ IH]; simpl.
    + reflexivity.
    + rewrite IH. f_equal. apply words_join. exact Hl.
Qed.

(** C9. After [createTextRows] there is at least one row, whatever the
    text; and an empty text, wrapped from no rows on a canvas that the
    empty string is not wider than, gives the one row [""]. *)
Theorem createTextRows_at_least_one_row (font : string) (this : Gif) :
  1 <= List.length (rows (createTextRows font this)) /\
  (text this = "" ->
   rows this = [] ->
   ngt (measureText font "") (width this) = false ->
   rows (createTextRows font this) = [TextRow.mk ""]).
Proof.
  split.
  - destruct (createTextRows_lines font this) as [lines [E1 [_ Hne]]].
    rewrite E1, length_app, length_map.
    destruct lines; [congruence | simpl; lia].
  - intros Ht Hr Hm. unfold createTextRows. rewrite Ht, Hr. simpl.
    change (join [""]) with "". rewrite Hm. reflexivity.
Qed.

(** ** Loops, arrays *)

Lemma for_loop_invariant {S : Type} (Inv : nat -> S -> Prop)
    (body : nat -> S -> result S) :
  forall count from s,
    Inv from s ->
    (forall i t, from <= i < from + count -> Inv i t ->
                 exists t', body i t = Ok t' /\ Inv (Datatypes.S i) t') ->
    exists s', for_loop from count body s = Ok s' /\ Inv (from + count) s'.
Proof.
  induction count as [|k IH]; intros from s H0 Hstep; simpl.
  - exists s. rewrite Nat.add_0_r. auto.
  - destruct (Hstep from s) as [t [Et It]]; [lia | assumption |].
    rewrite Et. simpl.
    destruct (IH (Datatypes.S from) t It) as [s' [Es Is]].
    + intros i u Hi Hu. apply Hstep; [lia | assumption].
    + exists s'. split; [assumption|].
      replace (from + Datatypes.S k) with (Datatypes.S from + k) by lia.
      assumption.
Qed.

Lemma at_index_Ok {A : Type} (l : list A) (index : nat) (a : A) :
  nth_error l index = Some a -> at_index l index = Ok a.
Proof. unfold at_index. intros ->. reflexivity. Qed.

Lemma nth_error_in_range {A : Type} (l : list A) (index : nat) :
  index < List.length l -> exists a, nth_error l index = Some a.
Proof.
  intros H. destruct (nth_error l index) as [a|] eqn:E.
  - exists a. reflexivity.
  - apply nth_error_None in E. lia.
Qed.

Lemma assign_index_same {A : Type} (l : list A) (index : nat) (a b : A) :
  nth_error l index = Some b ->
  nth_error (assign_index l index a) index = Some a.
Proof.
  revert index. induction l as [|c l IH]; intros [|k]; simpl;
    try discriminate; auto.
Qed.

Lemma assign_index_map {A B : Type} (f : A -> B) (l : list A) (index : nat)
    (a b : A) :
  nth_error l index = Some b -> f a = f b ->
  map f (assign_index l index a) = map f l.
Proof.
  revert index. induction l as [|c l IH]; intros [|k]; simpl;
    try discriminate.
  - intros [= ->] ->. reflexivity.
  - intros E Hf. rewrite (IH k E Hf). reflexivity.
Qed.

Lemma firstn_snoc {A : Type} (l : list A) (index : nat) (a : A) :
  nth_error l index = Some a ->
  firstn (Datatypes.S index) l = firstn index l ++ [a].
Proof.
  revert index. induction l as [|c l IH]; intros [|k]; simpl;
    try discriminate.
  - intros [= ->]. reflexivity.
  - intros E. rewrite <- (IH k E). reflexivity.
Qed.

Lemma combine_snoc {A B : Type} (l : list A) (m : list B) (a : A) (b : B) :
  List.length l = List.length m ->
  combine (l ++ [a]) (m ++ [b]) = combine l m ++ [(a, b)].
Proof.
  revert m. induction l as [|c l IH]; intros [|d m]; simpl;
    try discriminate; [reflexivity|].
  intros [= E]. rewrite (IH m E). reflexivity.
Qed.

Lemma nth_error_combine_both {A B : Type} (l : list A) (m : list B)
    (index : nat) (a : A) (b : B) :
  nth_error l index = Some a -> nth_error m index = Some b ->
  nth_error (combine l m) index = Some (a, b).
Proof.
  revert m index. induction l as [|c l IH]; intros [|d m] [|k]; simpl;
    try discriminate.
  - intros [= ->] [= ->]. reflexivity.
  - apply IH.
Qed.

(** ** Drawing the text *)

Lemma drawRow_loop (this : Gif) (lineHeight : num) (rest : list TextRow.t) :
  forall (before : list TextRow.t) (calls : list DrawCall),
    for_loop (List.length before) (List.length rest)
      (drawRow this lineHeight (before ++ rest)) calls
    = Ok (calls ++
          flat_map (rowCalls this lineHeight)
            (combine (seq (List.length before) (List.length rest)) rest)).
Proof.
  induction rest as [|row rest IH]; intros before calls; simpl.
  - rewrite app_nil_r. reflexivity.
  - unfold drawRow at 1. unfold at_index.
    rewrite nth_error_app2, Nat.sub_diag by lia. simpl.
    specialize (IH (before ++ [row])).
    rewrite length_app, <- app_assoc in IH. simpl in IH.
    rewrite Nat.add_1_r in IH. rewrite IH, <- app_assoc. reflexivity.
Qed.

(** The text drawing of a frame never throws: one row is drawn at the
    anchor with the whole text, several rows are drawn from the last
    one. *)
Lemma drawText_calls (this : Gif) (lineHeight : num) :
  drawText this lineHeight =
  Ok (if Nat.eqb (List.length (rows this)) 1
      then strokeAndFill (frameStyle this) (text this)
             (CanvasOptions.x (canvasOptions this))
             (CanvasOptions.y (canvasOptions this))
      else flat_map (rowCalls this lineHeight)
             (combine (seq 0 (List.length (rows this))) (rev (rows this)))).
Proof.
  unfold drawText. destruct (Nat.eqb (List.length (rows this)) 1).
  - reflexivity.
  - rewrite <- (length_rev (rows this)).
    exact (drawRow_loop this lineHeight (rev (rows this)) [] []).
Qed.

(** ** One frame of the loop *)

Lemma keeps_settings_refl (a : Gif) : keeps_settings a a.
Proof. unfold keeps_settings. tauto. Qed.

Lemma ensureRows_keeps (this : Gif) :
  keeps_settings this (ensureRows this) /\
  extractedFrames (ensureRows this) = extractedFrames this.
Proof.
  unfold ensureRows. destruct (Nat.eqb (List.length (rows this)) 0).
  - pose proof (createTextRows_fields (fontOf (textOptions this)) this) as F.
    unfold keeps_settings. decompose [and] F.
    repeat split; try assumption. f_equal. assumption.
  - split; [apply keeps_settings_refl | reflexivity].
Qed.

Lemma retainFrame_ok (this : Gif) (index : nat) (px : Pixels) (f : Frame) :
  nth_error (extractedFrames this) index = Some f ->
  exists this' f',
    retainFrame this index px = Ok this' /\
    nth_error (extractedFrames this') index = Some f' /\
    timing f' = timing f /\
    rows this' = rows this /\
    keeps_settings this this'.
Proof.
  intros E. unfold retainFrame.
  destruct (TextOptions.retain (textOptions this)).
  - rewrite (at_index_Ok _ _ _ E). simpl.
    eexists. eexists. split; [reflexivity|]. simpl. split.
    + eapply assign_index_same. exact E.
    + split; [reflexivity|]. split; [reflexivity|].
      unfold keeps_settings. simpl. repeat split.
      eapply assign_index_map; [exact E | reflexivity].
  - exists this, f. split; [reflexivity|]. split; [assumption|].
    split; [reflexivity|]. split; [reflexivity | apply keeps_settings_refl].
Qed.

(** A frame in range goes through the six steps without a throw; the
    lemma names what the turn of the loop leaves. *)
Lemma renderFrame_ok (lineHeight : num) (index : nat) (r : Loop) (f : Frame) :
  nth_error (extractedFrames (self r)) index = Some f ->
  let before := paintFrame (self r) index (surface r) in
  exists this' calls,
    drawText (ensureRows (emit (frameIndexUpdate index) (self r))) lineHeight
      = Ok calls /\
    renderFrame lineHeight index r =
      Ok (mkRender this'
            (if loose_eq (ExtractedFrame.disposal f) 2
             then blank (width (self r)) (height (self r))
             else before)
            (encoder r ++ frameCalls (f, fold_left perform calls before))) /\
    rows this' = rows (ensureRows (emit (frameIndexUpdate index) (self r))) /\
    keeps_settings (self r) this'.
Proof.
  intros E before. unfold renderFrame.
  set (this0 := emit (frameIndexUpdate index) (self r)).
  change (paintFrame this0 index (surface r)) with before.
  destruct (ensureRows_keeps this0) as [K0 F0].
  set (this1 := ensureRows this0) in *.
  assert (E1 : nth_error (extractedFrames this1) index = Some f)
    by (rewrite F0; exact E).
  rewrite drawText_calls.
  match goal with |- context [Ok ?c = Ok _] => set (calls := c) end.
  destruct (retainFrame_ok this1 index (fold_left perform calls before) f E1)
    as [this2 [f2 [R [E2 [T2 [R2 K2]]]]]].
  exists this2, calls. split; [reflexivity|].
  unfold takeSnapshot, commit, restoreBackground.
  rewrite (at_index_Ok _ _ _ E1). simpl.
  rewrite R. simpl. rewrite (at_index_Ok _ _ _ E2). simpl.
  assert (D : ExtractedFrame.disposal f2 = ExtractedFrame.disposal f)
    by (injection T2; auto).
  rewrite D. unfold loose_ne.
  unfold keeps_settings in *. decompose [and] K0. decompose [and] K2.
  subst this0. simpl in *.
  split.
  - destruct (loose_eq (ExtractedFrame.disposal f) 2); simpl.
    + rewrite <- !app_assoc. simpl. do 3 f_equal; congruence.
    + rewrite <- !app_assoc. reflexivity.
  - split; [exact R2|]. repeat split; congruence.
Qed.

(** ** The loop over the frames *)

Lemma keeps_settings_trans (a b c : Gif) :
  keeps_settings a b -> keeps_settings b c -> keeps_settings a c.
Proof.
  unfold keeps_settings. intros Hab Hbc.
  decompose [and] Hab. decompose [and] Hbc. repeat split; congruence.
Qed.

Lemma ensureRows_rows (this : Gif) :
  rows this <> [] -> rows (ensureRows this) = rows this.
Proof.
  unfold ensureRows. intros H.
  destruct (rows this) as [|row l] eqn:E; [congruence | simpl; exact E].
Qed.

(** The loop hands every stored frame to the encoder, in the order of
    the store, and throws for none. *)
Lemma frame_loop_ok (lineHeight : num) (this : Gif) (px : Pixels)
    (enc : list (EncoderCall num Pixels)) :
  exists r pxs,
    for_loop 0 (List.length (extractedFrames this)) (renderFrame lineHeight)
      (mkRender this px enc) = Ok r /\
    List.length pxs = List.length (extractedFrames this) /\
    encoder r = enc ++ flat_map frameCalls (combine (extractedFrames this) pxs) /\
    keeps_settings this (self r) /\
    (rows this <> [] -> rows (self r) = rows this).
Proof.
  remember (extractedFrames this) as frames eqn:Hframes.
  pose (Inv := fun (i : nat) (r : Loop) =>
    keeps_settings this (self r) /\
    (rows this <> [] -> rows (self r) = rows this) /\
    exists pxs, List.length pxs = i /\
      encoder r = enc ++ flat_map frameCalls (combine (firstn i frames) pxs)).
  destruct (@for_loop_invariant Loop Inv (renderFrame lineHeight)
              (List.length frames) 0 (mkRender this px enc))
    as [r [Er [K [Hrows [pxs [Lp Ee]]]]]].
  - split; [apply keeps_settings_refl|]. split; [reflexivity|].
    exists []. simpl. rewrite app_nil_r. auto.
  - intros i t Hi [K [Hrows [pxs [Lp Ee]]]].
    destruct (nth_error_in_range frames i) as [f0 E0]; [lia|].
    assert (Et : exists f, nth_error (extractedFrames (self t)) i = Some f /\
                           timing f = timing f0).
    { destruct K as (_ & _ & _ & _ & _ & _ & _ & M).
      pose proof (nth_error_map timing i (extractedFrames (self t))) as N1.
      rewrite M, nth_error_map, <- Hframes, E0 in N1.
      destruct (nth_error (extractedFrames (self t)) i) as [f|];
        [|discriminate].
      exists f. split; [reflexivity|]. simpl in N1. congruence. }
    destruct Et as [f [Ef Tf]].
    destruct (renderFrame_ok lineHeight i t f Ef) as [this' [calls [_ [Er [Rr Kr]]]]].
    eexists. split; [exact Er|]. unfold Inv. cbn [self encoder surface].
    split; [|split].
    + eapply keeps_settings_trans; eassumption.
    + intros Hne. rewrite Rr. specialize (Hrows Hne).
      rewrite ensureRows_rows; simpl; congruence.
    + exists (pxs ++ [fold_left perform calls (paintFrame (self t) i (surface t))]).
      split; [rewrite length_app; simpl; lia|].
      rewrite (firstn_snoc _ _ _ E0), combine_snoc, flat_map_app, Ee.
      * rewrite <- app_assoc. f_equal. f_equal. simpl.
        unfold frameCalls. simpl. unfold timing in Tf. congruence.
      * rewrite length_firstn. lia.
  - exists r, pxs. simpl in *. rewrite firstn_all in Ee. auto.
Qed.

Lemma anchor_fields (lineHeight : num) (this : Gif) :
  let this' := anchorY lineHeight (anchorX this) in
  extractedFrames this' = extractedFrames this /\
  rows this' = rows this /\
  console this' = console this /\
  text this' = text this /\
  textOptions this' = textOptions this.
Proof.
  unfold anchorY, anchorX. cbv zeta.
  destruct (TextOptions.positionX (textOptions this));
    destruct (TextOptions.alignmentX (textOptions this));
    cbn [textOptions rows set_canvasOptions];
    destruct (TextOptions.positionY (textOptions this));
    destruct (TextOptions.alignmentY (textOptions this));
    try destruct (Nat.eqb _ _); cbn; repeat split; reflexivity.
Qed.

Lemma no_finish_in_frames (l : list (Frame * Pixels)) :
  filter isFinish (flat_map (@frameCalls num Image Pixels) l) = [].
Proof. induction l as [|a l IH]; simpl; [reflexivity | exact IH]. Qed.

Lemma no_finish_in_openEncoder (this : Gif) :
  filter isFinish (openEncoder this) = [].
Proof.
  unfold openEncoder. destruct (TextOptions.transparent (textOptions this));
    reflexivity.
Qed.

(** What a whole render does, for every instance: it returns, the calls
    on the encoder are the opening ones, those of each stored frame in
    the order of the store, and [finish]; a row is added at least, after
    the rows that were there; nothing is logged. *)
Lemma encodeFrames_ok (txt : string) (this : Gif) :
  exists r pxs lines,
    encodeFrames txt this = Ok r /\
    List.length pxs = List.length (extractedFrames this) /\
    encoder r =
      openEncoder this
        ++ flat_map frameCalls (combine (extractedFrames this) pxs)
        ++ [Finish] /\
    console (self r) = console this /\
    text (self r) = text this /\
    textOptions (self r) = textOptions this /\
    lines <> [] /\
    List.concat lines = split (text this) /\
    rows (self r) = rows this ++ map rowOf lines.
Proof.
  unfold encodeFrames.
  set (font := fontOf (textOptions this)).
  set (lineHeight := measureText font "M").
  destruct (createTextRows_lines font this) as [lines [L1 [L2 L3]]].
  pose proof (createTextRows_fields font this) as F.
  pose proof (anchor_fields lineHeight (createTextRows font this)) as A.
  simpl in A.
  set (this' := anchorY lineHeight (anchorX (createTextRows font this))) in *.
  destruct (frame_loop_ok lineHeight this'
              (blank (width this) (height this)) (openEncoder this))
    as [r [pxs [Er [Lp [Ee [K Hr]]]]]].
  destruct F as (Ff & Fo & _ & _ & _ & Ft & _ & Fc).
  destruct A as (Af & Ar & Ac & At & Ao).
  destruct K as (_ & _ & Kt & Ko & _ & _ & Kc & _).
  rewrite Er. simpl.
  exists (mkRender (self r) (surface r) (encoder r ++ [Finish])), pxs, lines.
  simpl. repeat split; try congruence.
  - rewrite Ee, <- app_assoc. congruence.
  - rewrite Hr; [congruence|].
    rewrite Ar, L1. destruct lines; [congruence|].
    destruct (rows this); discriminate.
Qed.

(** ** The claims about a frame *)

(** C1. After a frame is handed to the encoder, the surface is blank when
    the disposal of the frame is 2; for any other disposal it is the
    [withoutText] snapshot taken for that frame, which is the surface as
    painted before the text was drawn. *)
Theorem surface_after_frame (lineHeight : num) (index : nat) (r : Loop)
    (f : Frame) :
  nth_error (extractedFrames (self r)) index = Some f ->
  exists r',
    renderFrame lineHeight index r = Ok r' /\
    (ExtractedFrame.disposal f = 2%Z ->
     surface r' = blank (width (self r)) (height (self r))) /\
    (ExtractedFrame.disposal f <> 2%Z ->
     takeSnapshot (ensureRows (emit (frameIndexUpdate index) (self r))) index
       (paintFrame (self r) index (surface r)) = Ok (Some (surface r')) /\
     surface r' = paintFrame (self r) index (surface r)).
Proof.
  intros E.
  destruct (renderFrame_ok lineHeight index r f E)
    as [this' [calls [_ [Er _]]]].
  eexists. split; [exact Er|]. cbn [surface]. split.
  - intros D. rewrite D. reflexivity.
  - intros D. apply Z.eqb_neq in D. unfold loose_eq. rewrite D.
    split; [|reflexivity].
    unfold takeSnapshot.
    destruct (ensureRows_keeps (emit (frameIndexUpdate index) (self r)))
      as [_ F].
    rewrite F. cbn [emit extractedFrames].
    rewrite (at_index_Ok _ _ _ E). simpl. unfold loose_ne, loose_eq.
    rewrite D. reflexivity.
Qed.

(** C10. In a turn of the loop, [withoutText] is assigned exactly when
    the disposal of the frame is not 2, the restoring step reads it under
    that condition only, and the turn does not throw. *)
Theorem withoutText_is_set_when_read (lineHeight : num) (index : nat)
    (r : Loop) :
  index < List.length (extractedFrames (self r)) ->
  exists f withoutText r',
    nth_error (extractedFrames (self r)) index = Some f /\
    takeSnapshot (ensureRows (emit (frameIndexUpdate index) (self r))) index
      (paintFrame (self r) index (surface r)) = Ok withoutText /\
    (withoutText <> None <-> ExtractedFrame.disposal f <> 2%Z) /\
    (ExtractedFrame.disposal f = 2%Z ->
     forall any, restoreBackground (self r) index any
                 = Ok (blank (width (self r)) (height (self r)))) /\
    renderFrame lineHeight index r = Ok r'.
Proof.
  intros Hi.
  destruct (nth_error_in_range _ _ Hi) as [f E].
  destruct (renderFrame_ok lineHeight index r f E)
    as [this' [calls [_ [Er _]]]].
  exists f. eexists. eexists. split; [exact E|].
  split; [|split; [|split; [|exact Er]]].
  - unfold takeSnapshot.
    destruct (ensureRows_keeps (emit (frameIndexUpdate index) (self r)))
      as [_ F].
    rewrite F. cbn [emit extractedFrames].
    rewrite (at_index_Ok _ _ _ E). reflexivity.
  - unfold loose_ne, loose_eq.
    destruct (Z.eqb_spec (ExtractedFrame.disposal f) 2); simpl.
    + split; intros; congruence.
    + split; intros; [assumption | discriminate].
  - intros D any. unfold restoreBackground.
    rewrite (at_index_Ok _ _ _ E). simpl. unfold loose_eq. rewrite D.
    reflexivity.
Qed.

(** What the extraction stores for a decoded frame. *)
Lemma extractFrame_order (frameData : list (FrameData.t num Image)) :
  forall this : Gif,
    extractedFrames (fold_left extractFrame frameData this) =
    extractedFrames this ++
    flat_map
      (fun d => match FrameData.getImage d with
                | Some img =>
                    [ExtractedFrame.mk (AnImage img)
                       (FrameData.delay d * 10) (FrameData.disposal d)]
                | None => []
                end) frameData.
Proof.
  induction frameData as [|d ds IH]; intros this; simpl.
  - rewrite app_nil_r. reflexivity.
  - rewrite IH. unfold extractFrame.
    destruct (FrameData.getImage d); simpl.
    + rewrite <- app_assoc. reflexivity.
    + reflexivity.
Qed.

(** C8. With more than one row, the rows are drawn from the last one:
    the row of index [i] in the reversed rows is stroked and filled at
    [canvasOptions.y - i * (approximateLineHeight + rowGap)], so that the
    last row is the one drawn with index 0. *)
Theorem rows_drawn_in_reverse (this : Gif) (lineHeight : num) :
  1 < List.length (rows this) ->
  drawText this lineHeight =
    Ok (flat_map (rowCalls this lineHeight)
          (combine (seq 0 (List.length (rows this))) (rev (rows this)))) /\
  forall k row,
    nth_error (rows this) k = Some row ->
    nth_error (combine (seq 0 (List.length (rows this))) (rev (rows this)))
      (List.length (rows this) - 1 - k)
    = Some (List.length (rows this) - 1 - k, row).
Proof.
  intros Hn. split.
  - rewrite drawText_calls.
    destruct (Nat.eqb_spec (List.length (rows this)) 1); [lia | reflexivity].
  - intros k row E.
    assert (Hk : k < List.length (rows this))
      by (apply nth_error_Some; congruence).
    set (n := List.length (rows this)) in *.
    assert (Er : nth_error (rev (rows this)) (n - 1 - k) = Some row).
    { rewrite nth_error_rev. fold n.
      destruct (Nat.ltb_spec (n - 1 - k) n); [|lia].
      replace (n - S (n - 1 - k)) with k by lia. exact E. }
    assert (Es : nth_error (seq 0 n) (n - 1 - k) = Some (n - 1 - k)).
    { rewrite nth_error_seq.
      destruct (Nat.ltb_spec (n - 1 - k) n); [reflexivity | lia]. }
    apply nth_error_combine_both; assumption.
Qed.

(** The text drawing of a frame makes a stroke call and then a fill call
    for every text it draws, with the configured stroke colour as the
    stroke style: the whole text once when there is one row, every row
    otherwise. *)
Lemma stroke_then_fill_for_every_row (this : Gif) (lineHeight : num) :
  exists places : list (string * num * num),
    drawText this lineHeight =
      Ok (flat_map
            (fun p => strokeAndFill (frameStyle this) (fst (fst p))
                        (snd (fst p)) (snd p))
            places) /\
    Style.strokeStyle (frameStyle this)
      = TextOptions.strokeColor (textOptions this) /\
    List.length places =
      (if Nat.eqb (List.length (rows this)) 1 then 1
       else List.length (rows this)).
Proof.
  rewrite drawText_calls.
  destruct (Nat.eqb (List.length (rows this)) 1).
  - exists [(text this, CanvasOptions.x (canvasOptions this),
             CanvasOptions.y (canvasOptions this))].
    simpl. repeat split.
  - exists (map (fun place =>
                   (TextRow.text (snd place),
                    CanvasOptions.x (canvasOptions this),
                    rowY this lineHeight (fst place)))
              (combine (seq 0 (List.length (rows this))) (rev (rows this)))).
    split; [|split].
    + f_equal. induction (combine _ _) as [|place l IH]; simpl;
        [reflexivity | rewrite IH; reflexivity].
    + reflexivity.
    + rewrite length_map, length_combine, length_seq, length_rev.
      apply Nat.min_id.
Qed.

(** C6, as the code has it.  When painting a frame throws, the turn of
    the loop goes on with the surface as it was: the text is drawn on it,
    the frame is handed to the encoder and the turn returns; nothing is
    sent to the console.  And a render returns for every instance, with
    the console as it was. *)
Theorem paint_failure_is_dropped (txt : string) (this : Gif) :
  (forall lineHeight index (r : Loop) f,
     nth_error (extractedFrames (self r)) index = Some f ->
     paintAttempt (self r) f (surface r) = None ->
     exists r' calls,
       renderFrame lineHeight index r = Ok r' /\
       drawText (ensureRows (emit (frameIndexUpdate index) (self r)))
         lineHeight = Ok calls /\
       encoder r' =
         encoder r ++ frameCalls (f, fold_left perform calls (surface r)) /\
       console (self r') = console (self r)) /\
  exists this',
    renderGIF txt this = Ok this' /\ console this' = console this.
Proof.
  split.
  - intros lineHeight index r f E P.
    destruct (renderFrame_ok lineHeight index r f E)
      as [this' [calls [Ed [Er [_ K]]]]].
    assert (Ep : paintFrame (self r) index (surface r) = surface r).
    { unfold paintFrame. rewrite E, P. reflexivity. }
    rewrite Ep in Er.
    eexists. exists calls. split; [exact Er|]. split; [exact Ed|].
    cbn [encoder self]. split; [reflexivity|].
    unfold keeps_settings in K. tauto.
  - destruct (encodeFrames_ok txt this)
      as [r [pxs [lines [Er [_ [_ [Ec _]]]]]]].
    unfold renderGIF. rewrite Er. simpl.
    eexists. split; [reflexivity|]. simpl. exact Ec.
Qed.

(** A render returns for every instance and logs nothing. *)
Lemma renderGIF_logs_nothing (txt : string) (this : Gif) :
  exists this',
    renderGIF txt this = Ok this' /\ console this' = console this.
Proof.
  destruct (encodeFrames_ok txt this)
    as [r [pxs [lines [Er [_ [_ [Ec _]]]]]]].
  unfold renderGIF. rewrite Er. simpl.
  eexists. split; [reflexivity|]. simpl. exact Ec.
Qed.

(** A render returns for every instance and leaves one more batch of
    rows after those that were there: [createTextRows] is called on every
    render and only [setText] empties the rows. *)
Lemma renderGIF_appends_rows (txt : string) (this : Gif) :
  exists this' lines,
    renderGIF txt this = Ok this' /\
    lines <> [] /\
    List.concat lines = split (text this) /\
    rows this' = rows this ++ map rowOf lines /\
    text this' = text this /\
    textOptions this' = textOptions this.
Proof.
  destruct (encodeFrames_ok txt this)
    as [r [pxs [lines [Er [_ [_ [_ [Et [Eo [Hl [Hc Hr]]]]]]]]]]].
  unfold renderGIF. rewrite Er. simpl.
  eexists. exists lines. split; [reflexivity|]. simpl. auto.
Qed.

(** What the two output methods do with a render that left no buffer:
    [toFile] throws, [toBuffer] returns the [null]. *)
Lemma output_without_buffer (filePath : string) (this this' : Gif) :
  renderGIF (text this) this = Ok this' ->
  buffer this' = None ->
  toFile filePath this = Throw (PlainError "Result GIF buffer returned empty")
  /\ toBuffer this = Ok (None, this').
Proof.
  intros Er Eb. unfold toFile, toBuffer. rewrite Er. simpl. rewrite Eb.
  split; reflexivity.
Qed.

End Properties.

(** The words of three rows. *)
Lemma createTextRows_keeps_words_witness :
  rows Sample.threeFrames = [] /\
  flat_map (fun row => words (TextRow.text row))
    (rows (createTextRows "32px calibri" Sample.threeFrames))
  = words (text Sample.threeFrames).
Proof.
  split; [reflexivity|].
  apply (proj2 (createTextRows_keeps_words "32px calibri" Sample.threeFrames
                  eq_refl)).
Defined.

(** The row of an empty text. *)
Lemma createTextRows_at_least_one_row_witness :
  text Sample.emptyText = "" /\
  rows Sample.emptyText = [] /\
  ngt (measureText "32px calibri" "") (width Sample.emptyText) = false /\
  rows (createTextRows "32px calibri" Sample.emptyText) = [TextRow.mk ""].
Proof.
  split; [reflexivity|]. split; [reflexivity|]. split; [reflexivity|].
  apply (proj2 (createTextRows_at_least_one_row "32px calibri"
                  Sample.emptyText)); reflexivity.
Defined.

(** A frame kept in place, and a frame restored to the background. *)
Lemma surface_after_frame_witness :
  (exists r',
     renderFrame Sample.lineHeight 0 (Sample.atLoop Sample.threeFrames) = Ok r'
     /\ surface r' = [Sample.PaintImage 1]) /\
  (exists r',
     renderFrame Sample.lineHeight 1 (Sample.atLoop Sample.threeFrames) = Ok r'
     /\ surface r' = []).
Proof.
  split.
  - destruct (surface_after_frame Sample.lineHeight 0
                (Sample.atLoop Sample.threeFrames)
                (ExtractedFrame.mk (AnImage 1) 100 1) eq_refl)
      as [r' [E [_ H]]].
    exists r'. split; [exact E|].
    exact (proj2 (H ltac:(discriminate))).
  - destruct (surface_after_frame Sample.lineHeight 1
                (Sample.atLoop Sample.threeFrames)
                (ExtractedFrame.mk (AnImage 0) 150 2) eq_refl)
      as [r' [E [H _]]].
    exists r'. split; [exact E|].
    exact (H eq_refl).
Defined.

(** The first of three frames. *)
Lemma withoutText_is_set_when_read_witness :
  0 < List.length (extractedFrames (self (Sample.atLoop Sample.threeFrames)))
  /\ exists r',
       renderFrame Sample.lineHeight 0 (Sample.atLoop Sample.threeFrames)
       = Ok r'.
Proof.
  assert (H : 0 < List.length
                    (extractedFrames (self (Sample.atLoop Sample.threeFrames))))
    by (vm_compute; lia).
  split; [exact H|].
  destruct (withoutText_is_set_when_read Sample.lineHeight 0
              (Sample.atLoop Sample.threeFrames) H)
    as [f [w [r' [_ [_ [_ [_ E]]]]]]].
  exists r'. exact E.
Defined.

(** Three rows: the last one at the anchor, the first one highest. *)
Lemma rows_drawn_in_reverse_witness :
  1 < List.length (rows (self (Sample.atLoop Sample.threeFrames))) /\
  drawText (self (Sample.atLoop Sample.threeFrames)) Sample.lineHeight =
    Ok (flat_map
          (rowCalls (self (Sample.atLoop Sample.threeFrames))
             Sample.lineHeight)
          [(0, TextRow.mk "cccccc"); (1, TextRow.mk "bbbbbb"); (2, TextRow.mk "aaaaaa")]).
Proof.
  assert (H : 1 < List.length
                    (rows (self (Sample.atLoop Sample.threeFrames))))
    by (vm_compute; lia).
  split; [exact H|].
  exact (proj1 (rows_drawn_in_reverse
                  (self (Sample.atLoop Sample.threeFrames))
                  Sample.lineHeight H)).
Defined.

(** The second of three frames cannot be drawn. *)
Lemma paint_failure_is_dropped_witness :
  paintAttempt (self (Sample.atLoop Sample.threeFrames))
    (ExtractedFrame.mk (AnImage 0) 150 2) [] = None /\
  exists r',
    renderFrame Sample.lineHeight 1 (Sample.atLoop Sample.threeFrames) = Ok r'
    /\ console (self r') = [].
Proof.
  assert (P : paintAttempt (self (Sample.atLoop Sample.threeFrames))
                (ExtractedFrame.mk (AnImage 0) 150 2)
                (surface (Sample.atLoop Sample.threeFrames)) = None)
    by reflexivity.
  split; [exact P|].
  destruct (proj1 (paint_failure_is_dropped (ENCODER := Sample.recording)
                     "" Sample.threeFrames)
              Sample.lineHeight 1 (Sample.atLoop Sample.threeFrames)
              (ExtractedFrame.mk (AnImage 0) 150 2) eq_refl P)
    as [r' [calls [E [_ [_ C]]]]].
  exists r'. split; [exact E | exact C].
Defined.

(** C6 fails as stated: a render in which the painting of a frame throws
    sends nothing to the console. *)
Lemma paint_failure_not_logged :
  ~ (forall (g g' : Sample.Gif) (txt : string) (index : nat) f,
       renderGIF (ENCODER := Sample.recording) txt g = Ok g' ->
       nth_error (extractedFrames g) index = Some f ->
       (forall px, paintAttempt g f px = None) ->
       console g' <> console g).
Proof.
  intros H.
  destruct (renderGIF_logs_nothing (ENCODER := Sample.recording)
              "" Sample.threeFrames) as [g' [E C]].
  apply (H Sample.threeFrames g' "" 1
           (ExtractedFrame.mk (AnImage 0) 150 2) E eq_refl).
  - intros px. reflexivity.
  - exact C.
Qed.

(** C3 at a failing input: one frame, the text "Hi", [toBuffer] twice.
    The text and the options are the same for both renders; the first
    draws one row, the second finds two and draws both, and the two
    outputs differ. *)
Theorem second_render_differs :
  exists b1 g1 b2 g2,
    toBuffer (ENCODER := Sample.recording) Sample.oneFrame = Ok (Some b1, g1) /\
    toBuffer (ENCODER := Sample.recording) g1 = Ok (Some b2, g2) /\
    text g1 = text Sample.oneFrame /\
    textOptions g1 = textOptions Sample.oneFrame /\
    rows g1 = [TextRow.mk "Hi"] /\
    rows g2 = [TextRow.mk "Hi"; TextRow.mk "Hi"] /\
    Sample.paints b1 = 3 /\
    Sample.paints b2 = 5 /\
    b1 <> b2.
Proof.
  do 4 eexists.
  split; [vm_compute; reflexivity|].
  split; [vm_compute; reflexivity|].
  repeat (split; [reflexivity|]).
  intros H. apply (f_equal Sample.paints) in H. vm_compute in H. discriminate.
Qed.


(* ------------------------------------------------------------------ *)
(** * Further properties: splitting and joining *)

Lemma string_append_assoc (a b c : string) :
  ((a ++ b) ++ c)%string = (a ++ (b ++ c))%string.
Proof. induction a as [|x a IH]; simpl; [reflexivity | rewrite IH; reflexivity]. Qed.

Lemma join_cons_char (c : ascii) (w : string) (ws : list string) :
  join (String c w :: ws) = String c (join (w :: ws)).
Proof. destruct ws; reflexivity. Qed.

(** Joining the pieces of a string with spaces gives the string back. *)
Lemma join_split (s : string) : join (split s) = s.
Proof.
  induction s as [|c s IH]; simpl; [reflexivity|].
  pose proof (split_not_nil s) as Hne.
  destruct (Ascii.eqb c space) eqn:E.
  - apply Ascii.eqb_eq in E. subst c.
    destruct (split s) as [|w ws] eqn:Es; [congruence|].
    change (join ("" :: w :: ws)) with (String space (join (w :: ws))).
    rewrite IH. reflexivity.
  - destruct (split s) as [|w ws] eqn:Es; [congruence|].
    rewrite join_cons_char, IH. reflexivity.
Qed.

Lemma join_app (a b : list string) :
  a <> [] -> b <> [] ->
  join (a ++ b) = (join a ++ " " ++ join b)%string.
Proof.
  intros Ha Hb. induction a as [|x a IH]; [congruence|].
  destruct a as [|y a].
  - destruct b; [congruence | reflexivity].
  - change (join ((x :: y :: a) ++ b))
      with (x ++ " " ++ join ((y :: a) ++ b))%string.
    rewrite IH by discriminate.
    change (join (x :: y :: a)) with (x ++ " " ++ join (y :: a))%string.
    rewrite !string_append_assoc. reflexivity.
Qed.

Lemma join_map_join (lines : list (list string)) :
  Forall (fun line => line <> []) lines ->
  join (map join lines) = join (List.concat lines).
Proof.
  induction 1 as [|line rest Hline Hrest IH]; [reflexivity|].
  destruct rest as [|next rest].
  - simpl. rewrite app_nil_r. reflexivity.
  - change (join (map join (line :: next :: rest)))
      with (join line ++ " " ++ join (map join (next :: rest)))%string.
    rewrite IH. simpl List.concat. symmetry. apply join_app; [assumption|].
    inversion Hrest; subst. destruct next; [congruence | discriminate].
Qed.

(* ------------------------------------------------------------------ *)
(** * Further properties of the class *)

Section Further.

Context {Source num Image Pixels Buffer : Type}.
Context {NUM : JsNumber num}.
Context {CANVAS : Canvas num Image Pixels}.
Context {ENCODER : Encoder num Pixels Buffer}.
Context {DECODER : GifFrames Source num Image}.
Context {FS : FileSystem Buffer}.

Local Abbreviation Gif := (@TextOnGif Source num Image Pixels Buffer).
Local Abbreviation Loop := (@Render Source num Image Pixels Buffer).
Local Abbreviation Frame := (ExtractedFrame.t Image Pixels).

(** ** The rows that wrapping makes *)

(** The loop of [createTextRows], with [previewText] and [lineText]
    equal as they are after every turn, commits the lines of
    [wrapLines]. *)
Lemma wrapWord_wrapLines (font : string) (maxWidth : num) (ws : list string) :
  forall cur rs previewText' lineText' rs',
    fold_left (wrapWord font maxWidth) ws (cur, cur, rs)
      = (previewText', lineText', rs') ->
    rs' ++ [rowOf lineText']
      = rs ++ map rowOf (wrapLines font maxWidth ws cur).
Proof.
  induction ws as [|w ws IH]; simpl; intros cur rs pv' line' rs' E.
  - inversion E; subst. reflexivity.
  - destruct (ngt (measureText font (join (cur ++ [w]))) maxWidth).
    + apply IH in E. rewrite E. simpl. rewrite <- app_assoc. reflexivity.
    + apply IH in E. exact E.
Qed.

Lemma createTextRows_wrapLines (font : string) (this : Gif) :
  rows (createTextRows font this)
    = rows this
        ++ map rowOf (wrapLines font (width this) (split (text this)) []).
Proof.
  unfold createTextRows.
  destruct (fold_left (wrapWord font (width this)) (split (text this))
              ([], [], rows this)) as [[pv line] rs] eqn:E.
  apply wrapWord_wrapLines in E. simpl. exact E.
Qed.

Lemma wrapLines_concat (font : string) (maxWidth : num) (ws : list string) :
  forall cur, List.concat (wrapLines font maxWidth ws cur) = cur ++ ws.
Proof.
  induction ws as [|w ws IH]; intros cur; simpl.
  - rewrite !app_nil_r. reflexivity.
  - destruct (ngt _ _); simpl; rewrite IH.
    + reflexivity.
    + rewrite <- app_assoc. reflexivity.
Qed.

Lemma wrapLines_head (font : string) (maxWidth : num) (ws : list string) :
  forall cur, exists more rest,
    wrapLines font maxWidth ws cur = (cur ++ more) :: rest.
Proof.
  induction ws as [|w ws IH]; intros cur; simpl.
  - exists [], []. rewrite app_nil_r. reflexivity.
  - destruct (ngt _ _).
    + exists [], (wrapLines font maxWidth ws [w]).
      rewrite app_nil_r. reflexivity.
    + destruct (IH (cur ++ [w])) as [more [rest E]].
      exists (w :: more), rest. rewrite E, <- app_assoc. reflexivity.
Qed.

Lemma wrapLines_fit (font : string) (maxWidth : num) (ws : list string) :
  forall cur,
    fitsOrSingle font maxWidth cur ->
    Forall (fitsOrSingle font maxWidth) (wrapLines font maxWidth ws cur).
Proof.
  induction ws as [|w ws IH]; intros cur Hcur; simpl.
  - constructor; [assumption | constructor].
  - destruct (ngt (measureText font (join (cur ++ [w]))) maxWidth) eqn:E.
    + constructor; [assumption|]. apply IH. right. simpl. lia.
    + apply IH. left. exact E.
Qed.

Lemma wrapLines_breaks (font : string) (maxWidth : num) (ws : list string) :
  forall cur, breaksNeeded font maxWidth (wrapLines font maxWidth ws cur).
Proof.
  induction ws as [|w ws IH]; intros cur; simpl.
  - exact I.
  - destruct (ngt (measureText font (join (cur ++ [w]))) maxWidth) eqn:E.
    + pose proof (IH [w]) as B.
      destruct (wrapLines_head font maxWidth ws [w]) as [more [rest H]].
      rewrite H in *. simpl. split; [|exact B].
      exists w, more. split; [reflexivity | exact E].
    + apply IH.
Qed.

Lemma wrapLines_nonempty (font : string) (maxWidth : num) (ws : list string) :
  forall cur,
    cur <> [] ->
    Forall (fun line => line <> []) (wrapLines font maxWidth ws cur).
Proof.
  induction ws as [|w ws IH]; intros cur Hcur; simpl.
  - constructor; [assumption | constructor].
  - destruct (ngt _ _).
    + constructor; [assumption|]. apply IH. discriminate.
    + apply IH. destruct cur; discriminate.
Qed.

(** X1. Every row that wrapping makes was measured and found not wider
    than the canvas, or has one word at most: a word wider than the
    canvas gets a row of its own and is not cut. *)
Theorem rows_fit_or_single (font : string) (this : Gif) :
  rows this = [] ->
  exists lines,
    rows (createTextRows font this) = map rowOf lines /\
    List.concat lines = split (text this) /\
    Forall (fitsOrSingle font (width this)) lines.
Proof.
  intros Hfresh.
  exists (wrapLines font (width this) (split (text this)) []).
  rewrite createTextRows_wrapLines, Hfresh. split; [reflexivity|]. split.
  - apply wrapLines_concat.
  - apply wrapLines_fit. right. simpl. lia.
Qed.

(** X2. Wrapping is greedy: a row ends only where the next word, put
    after the words of the row, was measured wider than the canvas. *)
Theorem rows_break_when_needed (font : string) (this : Gif) :
  rows this = [] ->
  exists lines,
    rows (createTextRows font this) = map rowOf lines /\
    List.concat lines = split (text this) /\
    breaksNeeded font (width this) lines.
Proof.
  intros Hfresh.
  exists (wrapLines font (width this) (split (text this)) []).
  rewrite createTextRows_wrapLines, Hfresh. split; [reflexivity|]. split.
  - apply wrapLines_concat.
  - apply wrapLines_breaks.
Qed.

(** X3. The texts of the rows, joined with spaces, are the text; when the
    first word alone is wider than the canvas, the empty row that comes
    first puts one space before it. *)
Theorem rows_join_back (font : string) (this : Gif) :
  rows this = [] ->
  join (map TextRow.text (rows (createTextRows font this))) =
    if ngt (measureText font (hd "" (split (text this)))) (width this)
    then String space (text this)
    else text this.
Proof.
  intros Hfresh. rewrite createTextRows_wrapLines, Hfresh. simpl.
  rewrite map_map. change (fun x => TextRow.text (rowOf x)) with join.
  pose proof (join_split (text this)) as J.
  destruct (split (text this)) as [|w ws] eqn:Es;
    [exfalso; eapply split_not_nil; eassumption|].
  simpl. change (join [w]) with w.
  assert (N : Forall (fun line => line <> [])
                (wrapLines font (width this) ws [w]))
    by (apply wrapLines_nonempty; discriminate).
  pose proof (join_map_join _ N) as M. rewrite wrapLines_concat in M.
  simpl in M. rewrite J in M.
  destruct (ngt (measureText font w) (width this)).
  - destruct (wrapLines_head font (width this) ws [w]) as [more [rest H]].
    rewrite H in *. simpl map in *.
    change (join (join [] :: join (w :: more) :: map join rest))
      with (String space (join (join (w :: more) :: map join rest))).
    rewrite M. reflexivity.
  - exact M.
Qed.

(** X4. When wrapping leaves one row, that row is the whole text: the
    branch of the text drawing for one row, which draws [this.text],
    draws the row. *)
Theorem single_row_is_text (font : string) (this : Gif) :
  rows this = [] ->
  List.length (rows (createTextRows font this)) = 1 ->
  rows (createTextRows font this) = [TextRow.mk (text this)].
Proof.
  intros Hfresh Hone.
  destruct (createTextRows_lines font this) as [lines [E1 [E2 _]]].
  rewrite Hfresh in E1. simpl in E1. rewrite E1 in *.
  rewrite length_map in Hone.
  destruct lines as [|line [|]]; try discriminate.
  simpl in E2. rewrite app_nil_r in E2. subst line.
  simpl. unfold rowOf. rewrite join_split. reflexivity.
Qed.

(** ** [setText] and [#extractFrames] *)

(** The loop over the decoded frames, in closed form. *)
Lemma extractFrame_fold (frameData : list (FrameData.t num Image)) :
  forall this : Gif,
    fold_left extractFrame frameData this =
    mkTextOnGif (source this) (numberOfFrames this) (retained this)
      (extractedFrames this ++ flat_map stored frameData)
      (width this) (height this) (text this) (textOptions this)
      (buffer this) (canvasOptions this) (rows this)
      (console this ++ flat_map logged frameData) (emitted this).
Proof.
  induction frameData as [|d ds IH]; intros this.
  - destruct this. simpl. rewrite !app_nil_r. reflexivity.
  - simpl fold_left. rewrite IH. cbn [flat_map].
    unfold extractFrame, stored at 2, logged at 2.
    destruct (FrameData.getImage d); simpl;
      rewrite <- ?app_assoc; reflexivity.
Qed.

(** [setText] on a source that decodes to a frame at least, in closed
    form. *)
Lemma setText_closed_form (txt : string)
    (options : option (TextOptions.partial num)) (this : Gif)
    (first : FrameData.t num Image) (others : list (FrameData.t num Image)) :
  gifFrames (source this) = Ok (first :: others) ->
  setText txt options this =
    Ok (mkTextOnGif (source this) (List.length (first :: others))
          (retained this)
          (extractedFrames this ++ flat_map stored (first :: others))
          (FrameData.width first) (FrameData.height first) txt
          (match options with
           | Some o => TextOptions.assign (textOptions this) o
           | None => textOptions this
           end)
          (buffer this) (canvasOptions this) []
          (console this ++ flat_map logged (first :: others))
          (emitted this ++ [frameDataExtreacted; extractionComplete])).
Proof.
  intros E. unfold setText, extractFrames.
  destruct options as [o|]; cbn [source set_rows set_text set_textOptions];
    rewrite E; cbn [bind]; rewrite extractFrame_fold; unfold emit; simpl;
    rewrite <- ?app_assoc; reflexivity.
Qed.

(** X5. What [setText] leaves when the source decodes to at least one
    frame: the new text, no rows, the options merged, the size of the
    first frame, the count of all decoded frames, the frames that could
    be written put after those already stored, with ten times their
    delay, one logged error for each frame that could not, the two
    events; the buffer and the canvas options are as they were. *)
Theorem setText_ok (txt : string)
    (options : option (TextOptions.partial num)) (this : Gif)
    (first : FrameData.t num Image) (others : list (FrameData.t num Image)) :
  gifFrames (source this) = Ok (first :: others) ->
  setText txt options this =
    Ok (mkTextOnGif (source this) (List.length (first :: others))
          (retained this)
          (extractedFrames this ++ flat_map stored (first :: others))
          (FrameData.width first) (FrameData.height first) txt
          (match options with
           | Some o => TextOptions.assign (textOptions this) o
           | None => textOptions this
           end)
          (buffer this) (canvasOptions this) []
          (console this ++ flat_map logged (first :: others))
          (emitted this ++ [frameDataExtreacted; extractionComplete])).
Proof.
  intros E. unfold setText, extractFrames.
  destruct options as [o|]; cbn [source set_rows set_text set_textOptions];
    rewrite E; cbn [bind]; rewrite extractFrame_fold; unfold emit; simpl;
    rewrite <- ?app_assoc; reflexivity.
Qed.

(** X6. [setText] throws what the decoder throws, and throws a
    [TypeError] when the decoder gives no frame at all. *)
Theorem setText_throws (txt : string)
    (options : option (TextOptions.partial num)) (this : Gif) :
  (forall e, gifFrames (source this) = Throw e ->
             setText txt options this = Throw e) /\
  (gifFrames (source this) = Ok [] ->
   setText txt options this
     = Throw (TypeError "Cannot read properties of undefined")).
Proof.
  split; [intros e E | intros E]; unfold setText, extractFrames;
    destruct options; cbn [source set_rows set_text set_textOptions];
    rewrite E; reflexivity.
Qed.

(** X7. The store is never emptied: a second [setText] on the same
    instance puts the frames of the source after those of the first
    call, so that the store holds them twice while [numberOfFrames]
    counts them once. *)
Theorem setText_twice (this : Gif)
    (first : FrameData.t num Image) (others : list (FrameData.t num Image))
    (txt1 txt2 : string) (o1 o2 : option (TextOptions.partial num)) :
  gifFrames (source this) = Ok (first :: others) ->
  exists this1 this2,
    setText txt1 o1 this = Ok this1 /\
    setText txt2 o2 this1 = Ok this2 /\
    extractedFrames this2 =
      extractedFrames this ++ flat_map stored (first :: others)
        ++ flat_map stored (first :: others) /\
    numberOfFrames this2 = List.length (first :: others) /\
    text this2 = txt2 /\
    rows this2 = [].
Proof.
  intros E. eexists. eexists.
  split; [apply setText_closed_form; exact E|].
  split; [apply setText_closed_form; exact E|].
  cbn [extractedFrames numberOfFrames text rows].
  rewrite <- app_assoc. repeat split.
Qed.

(** X8. [noOfFrames] on a fresh instance waits for the event
    [frameDataExtreacted]; after a [setText] that returned it answers at
    once, with the number of frames decoded, those that could not be
    stored included. *)
Theorem noOfFrames_after_setText (txt : string)
    (options : option (TextOptions.partial num)) (this : Gif)
    (first : FrameData.t num Image) (others : list (FrameData.t num Image)) :
  gifFrames (source this) = Ok (first :: others) ->
  noOfFrames (new (source this) : Gif)
    = OnEvent frameDataExtreacted numberOfFrames
  /\ exists this',
       setText txt options this = Ok this' /\
       noOfFrames this' = Resolved (List.length (first :: others)) /\
       List.length (extractedFrames this') <=
         List.length (extractedFrames this) + List.length (first :: others).
Proof.
  intros E. split; [reflexivity|].
  eexists. split; [apply setText_closed_form; exact E|].
  split; [reflexivity|].
  cbn [extractedFrames]. rewrite length_app.
  apply Nat.add_le_mono_l.
  generalize (first :: others) as ds.
  induction ds as [|d ds IH]; [reflexivity|].
  cbn [flat_map]. rewrite length_app. unfold stored at 1.
  destruct (FrameData.getImage d); simpl; lia.
Qed.

(** ** A render, field by field *)

Lemma skipn_cons {A : Type} (l : list A) (index : nat) (a : A) :
  nth_error l index = Some a ->
  skipn index l = a :: skipn (Datatypes.S index) l.
Proof.
  revert index. induction l as [|b l IH]; intros [|k]; simpl;
    try discriminate.
  - intros [= ->]. reflexivity.
  - intros E. exact (IH k E).
Qed.

Lemma nth_error_middle {A : Type} (before after : list A) (a : A) :
  nth_error (before ++ a :: after) (List.length before) = Some a.
Proof. rewrite nth_error_app2, Nat.sub_diag by lia. reflexivity. Qed.

Lemma assign_index_middle {A : Type} (before after : list A) (a b : A) :
  assign_index (before ++ a :: after) (List.length before) b
    = before ++ b :: after.
Proof.
  induction before as [|c before IH]; simpl; [reflexivity|].
  rewrite IH. reflexivity.
Qed.

Lemma ensureRows_id (this : Gif) : rows this <> [] -> ensureRows this = this.
Proof.
  unfold ensureRows. intros H.
  destruct (rows this) as [|row l]; [congruence | reflexivity].
Qed.

(** The instance after the two anchor steps differs by its canvas
    options only. *)
Lemma anchor_exact (lineHeight : num) (this : Gif) :
  anchorY lineHeight (anchorX this) =
  set_canvasOptions (canvasOptions (anchorY lineHeight (anchorX this))) this.
Proof.
  unfold anchorY, anchorX. cbv zeta.
  destruct (TextOptions.positionX (textOptions this));
    destruct (TextOptions.alignmentX (textOptions this));
    cbn [textOptions rows set_canvasOptions];
    destruct (TextOptions.positionY (textOptions this));
    destruct (TextOptions.alignmentY (textOptions this));
    try destruct (Nat.eqb _ _); reflexivity.
Qed.

Lemma createTextRows_set_rows (font : string) (this : Gif) :
  createTextRows font this = set_rows (rows (createTextRows font this)) this.
Proof.
  unfold createTextRows. destruct (fold_left _ _ _) as [[pv line] rs].
  reflexivity.
Qed.

Lemma createTextRows_not_nil (font : string) (this : Gif) :
  rows (createTextRows font this) <> [].
Proof.
  destruct (createTextRows_lines font this) as [lines [E [_ Hne]]].
  rewrite E. destruct lines; [congruence|].
  destruct (rows this); discriminate.
Qed.

(** One turn of the loop, with the instance it leaves. *)
Lemma renderFrame_exact (lineHeight : num) (index : nat) (r : Loop)
    (f : Frame) (this1 : Gif) (calls : list (@DrawCall num)) :
  nth_error (extractedFrames (self r)) index = Some f ->
  this1 = ensureRows (emit (frameIndexUpdate index) (self r)) ->
  drawText this1 lineHeight = Ok calls ->
  let px := fold_left perform calls (paintFrame (self r) index (surface r)) in
  renderFrame lineHeight index r =
    Ok (mkRender
          (if TextOptions.retain (textOptions this1)
           then set_extractedFrames
                  (assign_index (extractedFrames this1) index
                     (writtenBack (f, px))) this1
           else this1)
          (if loose_eq (ExtractedFrame.disposal f) 2
           then blank (width this1) (height this1)
           else paintFrame (self r) index (surface r))
          (encoder r ++ frameCalls (f, px))).
Proof.
  intros E E1 D px. unfold renderFrame.
  change (paintFrame (emit (frameIndexUpdate index) (self r)) index (surface r))
    with (paintFrame (self r) index (surface r)).
  rewrite <- E1, D.
  assert (F : nth_error (extractedFrames this1) index = Some f).
  { rewrite E1.
    destruct (ensureRows_keeps (emit (frameIndexUpdate index) (self r)))
      as [_ F0].
    rewrite F0. exact E. }
  unfold takeSnapshot, commit, retainFrame.
  rewrite (at_index_Ok _ _ _ F). cbn [bind]. fold px.
  destruct (TextOptions.retain (textOptions this1)).
  - cbn [bind]. unfold restoreBackground.
    cbn [extractedFrames set_extractedFrames].
    rewrite (at_index_Ok _ _ _ (assign_index_same _ _ _ _ F)).
    cbn [bind writtenBack fst snd ExtractedFrame.disposal width height].
    unfold loose_ne.
    destruct (loose_eq (ExtractedFrame.disposal f) 2); cbn;
      rewrite <- !app_assoc; reflexivity.
  - cbn [bind]. unfold restoreBackground.
    rewrite (at_index_Ok _ _ _ F). cbn [bind]. unfold loose_ne.
    destruct (loose_eq (ExtractedFrame.disposal f) 2); cbn;
      rewrite <- !app_assoc; reflexivity.
Qed.

(** The loop over the frames, with the instance it leaves. *)
Lemma frame_loop_exact (lineHeight : num) (this : Gif) (px : Pixels)
    (enc : list (EncoderCall num Pixels)) :
  rows this <> [] ->
  exists pxs surf,
    List.length pxs = List.length (extractedFrames this) /\
    for_loop 0 (List.length (extractedFrames this)) (renderFrame lineHeight)
      (mkRender this px enc) =
    Ok (mkRender
          (mkTextOnGif (source this) (numberOfFrames this) (retained this)
             (if TextOptions.retain (textOptions this)
              then map writtenBack (combine (extractedFrames this) pxs)
              else extractedFrames this)
             (width this) (height this) (text this) (textOptions this)
             (buffer this) (canvasOptions this) (rows this) (console this)
             (emitted this
                ++ map frameIndexUpdate
                     (seq 0 (List.length (extractedFrames this)))))
          surf
          (enc ++ flat_map frameCalls (combine (extractedFrames this) pxs))).
Proof.
  intros Hrows.
  remember (extractedFrames this) as frames eqn:Hframes.
  pose (state := fun (i : nat) (pxs : list Pixels) =>
    mkTextOnGif (source this) (numberOfFrames this) (retained this)
      ((if TextOptions.retain (textOptions this)
        then map writtenBack (combine (firstn i frames) pxs)
        else firstn i frames) ++ skipn i frames)
      (width this) (height this) (text this) (textOptions this)
      (buffer this) (canvasOptions this) (rows this) (console this)
      (emitted this ++ map frameIndexUpdate (seq 0 i))).
  pose (Inv := fun (i : nat) (r : Loop) =>
    exists pxs, List.length pxs = i /\
      self r = state i pxs /\
      encoder r = enc ++ flat_map frameCalls (combine (firstn i frames) pxs)).
  destruct (@for_loop_invariant Loop Inv (renderFrame lineHeight)
              (List.length frames) 0 (mkRender this px enc))
    as [r [Er [pxs [Lp [Es Ee]]]]].
  - exists []. split; [reflexivity|]. split.
    + unfold state. cbn [self firstn skipn combine map seq].
      rewrite app_nil_r, Hframes.
      destruct (TextOptions.retain (textOptions this));
        destruct this; reflexivity.
    + cbn. rewrite app_nil_r. reflexivity.
  - intros i t Hi [pxs [Lp [Es Ee]]].
    destruct (nth_error_in_range frames i) as [f0 E0]; [lia|].
    assert (Li : List.length (firstn i frames) = i)
      by (rewrite length_firstn; lia).
    set (kept := if TextOptions.retain (textOptions this)
                 then map writtenBack (combine (firstn i frames) pxs)
                 else firstn i frames).
    assert (Lk : List.length kept = i).
    { unfold kept. destruct (TextOptions.retain (textOptions this)).
      - rewrite length_map, length_combine, Li, Lp. apply Nat.min_id.
      - exact Li. }
    assert (Ef : extractedFrames (self t)
                 = kept ++ f0 :: skipn (Datatypes.S i) frames).
    { rewrite Es. unfold state. cbn [extractedFrames].
      fold kept. rewrite (skipn_cons _ _ _ E0). reflexivity. }
    assert (Et : nth_error (extractedFrames (self t)) i = Some f0).
    { rewrite Ef, <- Lk. apply nth_error_middle. }
    set (this1 := emit (frameIndexUpdate i) (self t)).
    assert (E1 : this1 = ensureRows (emit (frameIndexUpdate i) (self t))).
    { symmetry. apply ensureRows_id. unfold this1. rewrite Es. exact Hrows. }
    pose proof (renderFrame_exact lineHeight i t f0 this1 _ Et E1
                  (drawText_calls this1 lineHeight)) as R.
    cbv zeta in R.
    match type of R with
    | context [frameCalls (f0, ?p)] => set (px' := p) in *
    end.
    eexists. split; [exact R|].
    exists (pxs ++ [px']). split; [rewrite length_app; simpl; lia|].
    cbn [self encoder]. split.
    + unfold this1. rewrite Es. unfold state, emit.
      cbn [textOptions extractedFrames source numberOfFrames retained width
           height text buffer canvasOptions rows console emitted
           set_extractedFrames].
      rewrite seq_S, map_app, app_assoc. cbn [map Nat.add].
      rewrite (firstn_snoc _ _ _ E0).
      fold kept. rewrite (skipn_cons _ _ _ E0).
      pose proof (assign_index_middle kept (skipn (Datatypes.S i) frames) f0
                    (writtenBack (f0, px'))) as M.
      rewrite Lk in M. rewrite M. clear M.
      unfold kept.
      destruct (TextOptions.retain (textOptions this)).
      * rewrite combine_snoc, map_app by (rewrite Li, Lp; reflexivity).
        cbn [map set_extractedFrames source numberOfFrames retained width
             height text textOptions buffer canvasOptions rows console
             emitted].
        rewrite <- !app_assoc. reflexivity.
      * rewrite <- !app_assoc. reflexivity.
    + rewrite Ee, (firstn_snoc _ _ _ E0), combine_snoc, flat_map_app
        by (rewrite Li, Lp; reflexivity).
      rewrite <- app_assoc. cbn [flat_map]. rewrite app_nil_r. reflexivity.
  - change (0 + List.length frames) with (List.length frames) in *.
    exists pxs, (surface r). split; [exact Lp|].
    rewrite Er. destruct r as [s0 p0 e0]. cbn [self encoder surface] in *.
    rewrite Es, Ee. unfold state.
    rewrite firstn_all, skipn_all, app_nil_r.
    destruct (TextOptions.retain (textOptions this)); rewrite ?app_nil_r;
      reflexivity.
Qed.

(** A whole render up to [finish], with the instance it leaves. *)
Lemma encodeFrames_exact (txt : string) (this : Gif) :
  let font := fontOf (textOptions this) in
  let lineHeight := measureText font "M" in
  exists pxs surf,
    List.length pxs = List.length (extractedFrames this) /\
    encodeFrames txt this =
    Ok (mkRender
          (mkTextOnGif (source this) (numberOfFrames this) (retained this)
             (if TextOptions.retain (textOptions this)
              then map writtenBack (combine (extractedFrames this) pxs)
              else extractedFrames this)
             (width this) (height this) (text this) (textOptions this)
             (buffer this)
             (canvasOptions
                (anchorY lineHeight (anchorX (createTextRows font this))))
             (rows (createTextRows font this)) (console this)
             (emitted this
                ++ map frameIndexUpdate
                     (seq 0 (List.length (extractedFrames this)))))
          surf
          (openEncoder this
             ++ flat_map frameCalls (combine (extractedFrames this) pxs)
             ++ [Finish])).
Proof.
  intros font lineHeight. unfold encodeFrames. fold font. fold lineHeight.
  set (X := createTextRows font this).
  set (C := canvasOptions (anchorY lineHeight (anchorX X))).
  set (R := rows X).
  assert (H : anchorY lineHeight (anchorX X)
              = set_canvasOptions C (set_rows R this)).
  { rewrite (anchor_exact lineHeight X). fold C. f_equal.
    apply createTextRows_set_rows. }
  rewrite H.
  assert (Hrows : rows (set_canvasOptions C (set_rows R this)) <> []).
  { cbn [rows set_canvasOptions set_rows]. unfold R, X.
    apply createTextRows_not_nil. }
  destruct (frame_loop_exact lineHeight (set_canvasOptions C (set_rows R this))
              (blank (width this) (height this)) (openEncoder this) Hrows)
    as [pxs [surf [Lp El]]].
  cbn [set_canvasOptions set_rows source numberOfFrames retained
       extractedFrames width height text textOptions buffer canvasOptions
       rows console emitted] in Lp, El.
  cbn [set_canvasOptions set_rows extractedFrames].
  rewrite El. cbn [bind self surface encoder].
  exists pxs, surf. split; [exact Lp|].
  rewrite <- app_assoc. reflexivity.
Qed.

(** A whole render, with the instance it leaves. *)
Lemma renderGIF_exact (txt : string) (this : Gif) :
  let font := fontOf (textOptions this) in
  let lineHeight := measureText font "M" in
  exists pxs,
    List.length pxs = List.length (extractedFrames this) /\
    renderGIF txt this =
    Ok (mkTextOnGif (source this) (numberOfFrames this) (retained this)
          (if TextOptions.retain (textOptions this)
           then map writtenBack (combine (extractedFrames this) pxs)
           else extractedFrames this)
          (width this) (height this) (text this) (textOptions this)
          (getData
             (openEncoder this
                ++ flat_map frameCalls (combine (extractedFrames this) pxs)
                ++ [Finish]))
          (canvasOptions
             (anchorY lineHeight (anchorX (createTextRows font this))))
          (rows (createTextRows font this)) (console this)
          (emitted this
             ++ map frameIndexUpdate
                  (seq 0 (List.length (extractedFrames this)))
             ++ [finished])).
Proof.
  intros font lineHeight.
  destruct (encodeFrames_exact txt this) as [pxs [surf [Lp E]]].
  exists pxs. split; [exact Lp|].
  unfold renderGIF. fold font in E. fold lineHeight in E. rewrite E.
  cbn [bind self encoder]. unfold emit, set_buffer.
  cbn [source numberOfFrames retained extractedFrames width height text
       textOptions buffer canvasOptions rows console emitted].
  rewrite <- app_assoc. reflexivity.
Qed.

(** X10. With the retain option off, a render changes the buffer, the
    canvas options, the rows and the events of the instance and nothing
    else: the stored frames, the text, the options, the size and the
    frame count are as they were. *)
Theorem render_keeps_instance (txt : string) (this : Gif) :
  TextOptions.retain (textOptions this) = false ->
  exists this',
    renderGIF txt this = Ok this' /\
    extractedFrames this' = extractedFrames this /\
    text this' = text this /\
    textOptions this' = textOptions this /\
    width this' = width this /\
    height this' = height this /\
    numberOfFrames this' = numberOfFrames this /\
    source this' = source this.
Proof.
  intros Hr. destruct (renderGIF_exact txt this) as [pxs [_ E]].
  eexists. split; [exact E|]. cbn. rewrite Hr. repeat split.
Qed.

(** X11. With the retain option on, a render leaves in every stored
    frame, as an [ImageData], the very pixels that it handed to the
    encoder for that frame, with the delay and the disposal of the
    frame; the field [retained] is not set by it. *)
Theorem retain_writes_back (txt : string) (this : Gif) :
  TextOptions.retain (textOptions this) = true ->
  exists r pxs,
    encodeFrames txt this = Ok r /\
    List.length pxs = List.length (extractedFrames this) /\
    encoder r =
      openEncoder this
        ++ flat_map frameCalls (combine (extractedFrames this) pxs)
        ++ [Finish] /\
    extractedFrames (self r)
      = map writtenBack (combine (extractedFrames this) pxs) /\
    retained (self r) = retained this.
Proof.
  intros Hr. destruct (encodeFrames_exact txt this) as [pxs [surf [Lp E]]].
  eexists. exists pxs. split; [exact E|]. cbn. rewrite Hr. repeat split.
  exact Lp.
Qed.

(** X13. The two output methods, for every instance: the render they
    start never throws; [toBuffer] returns what the encoder holds, be it
    [null]; [toFile] returns [true] when there is a buffer and the write
    finishes, and throws in the two other cases only. *)
Theorem output_methods (filePath : string) (this : Gif) :
  exists r,
    encodeFrames (text this) this = Ok r /\
    let out := getData (encoder r) in
    let this' := emit finished (set_buffer out (self r)) in
    toBuffer this = Ok (out, this') /\
    toFile filePath this =
      match out with
      | Some b =>
          if writeStreamToFile b filePath then Ok (true, this')
          else Throw (PlainError "write failed")
      | None => Throw (PlainError "Result GIF buffer returned empty")
      end.
Proof.
  destruct (encodeFrames_ok (text this) this) as [r [pxs [lines [E _]]]].
  exists r. split; [exact E|].
  unfold toBuffer, toFile, renderGIF. rewrite E. cbn. split; reflexivity.
Qed.

Lemma addFrames_in_frames (l : list (Frame * Pixels)) :
  List.length (filter isAddFrame (flat_map (@frameCalls num Image Pixels) l))
    = List.length l.
Proof. induction l as [|a l IH]; simpl; [reflexivity | rewrite IH; reflexivity]. Qed.

(** X14. The number of frames announced to the encoder when it is made
    is the number of [addFrame] calls that follow: one for each stored
    frame, whether it could be painted or not. *)
Theorem announced_frame_count (txt : string) (this : Gif) :
  exists r,
    encodeFrames txt this = Ok r /\
    hd_error (encoder r) =
      Some (New (width this) (height this) "neuquant" false
              (List.length (extractedFrames this))) /\
    List.length (filter isAddFrame (encoder r))
      = List.length (extractedFrames this).
Proof.
  destruct (encodeFrames_ok txt this) as [r [pxs [lines [E [Lp [Ee _]]]]]].
  exists r. split; [exact E|]. rewrite Ee. split.
  - unfold openEncoder.
    destruct (TextOptions.transparent (textOptions this)); reflexivity.
  - rewrite !filter_app, !length_app, addFrames_in_frames, length_combine, Lp.
    unfold openEncoder.
    destruct (TextOptions.transparent (textOptions this)); simpl; lia.
Qed.

(** X15. The anchor does not depend on the canvas options left by an
    earlier render: both coordinates, the alignment and the baseline are
    set anew from the text options, the size and the number of rows. *)
Theorem anchor_forgets_previous (lineHeight : num) (this : Gif)
    (c : CanvasOptions.t num) :
  canvasOptions (anchorY lineHeight (anchorX (set_canvasOptions c this)))
    = canvasOptions (anchorY lineHeight (anchorX this)).
Proof.
  unfold anchorY, anchorX. cbv zeta.
  cbn [textOptions rows width height set_canvasOptions canvasOptions].
  destruct (TextOptions.positionX (textOptions this));
    destruct (TextOptions.alignmentX (textOptions this));
    cbn [textOptions rows width height set_canvasOptions canvasOptions];
    destruct (TextOptions.positionY (textOptions this));
    destruct (TextOptions.alignmentY (textOptions this));
    try destruct (Nat.eqb _ _); reflexivity.
Qed.

(** X16. After a render, an explicit [positionX] is the x of the anchor,
    with the alignment ["start"], and an explicit [positionY] is its y,
    with the baseline ["top"], whatever the alignments and the offsets
    are. *)
Theorem explicit_position_wins (txt : string) (this : Gif) :
  exists this',
    renderGIF txt this = Ok this' /\
    (forall x, TextOptions.positionX (textOptions this) = Some x ->
               CanvasOptions.x (canvasOptions this') = x /\
               CanvasOptions.textAlign (canvasOptions this') = "start") /\
    (forall y, TextOptions.positionY (textOptions this) = Some y ->
               CanvasOptions.y (canvasOptions this') = y /\
               CanvasOptions.textBaseline (canvasOptions this') = "top").
Proof.
  destruct (renderGIF_exact txt this) as [pxs [_ E]].
  eexists. split; [exact E|]. cbn [canvasOptions].
  pose proof (createTextRows_fields (fontOf (textOptions this)) this) as F.
  destruct F as (_ & Fo & _).
  set (X := createTextRows (fontOf (textOptions this)) this) in *.
  split; intros v Hv; rewrite <- Fo in Hv; unfold anchorY, anchorX; cbv zeta.
  - rewrite Hv. cbn [textOptions rows set_canvasOptions canvasOptions].
    destruct (TextOptions.positionY (textOptions X));
      destruct (TextOptions.alignmentY (textOptions X));
      try destruct (Nat.eqb _ _); split; reflexivity.
  - destruct (TextOptions.positionX (textOptions X));
      destruct (TextOptions.alignmentX (textOptions X));
      cbn [textOptions rows set_canvasOptions canvasOptions];
      rewrite Hv; split; reflexivity.
Qed.

(** X17. No method sets the field [retained]: it is false in every
    instance that the constructor and the methods lead to, so that the
    paint step of a frame always calls [drawImage] and never
    [putImageData]. *)
Theorem retained_never_set (this : Gif) :
  reachable this ->
  retained this = false /\
  forall f px, paintAttempt this f px
               = drawImage (ExtractedFrame.imageData f) px.
Proof.
  intros H.
  assert (R : retained this = false).
  { induction H as [src | this this' txt o _ IH E | this this' b _ IH E
                   | this this' path done _ IH E].
    - reflexivity.
    - unfold setText in E.
      set (this0 := set_rows [] (set_text txt
                      match o with
                      | Some o0 =>
                          set_textOptions
                            (TextOptions.assign (textOptions this) o0) this
                      | None => this
                      end)) in E.
      assert (R0 : retained this0 = false)
        by (unfold this0; destruct o; exact IH).
      unfold extractFrames in E.
      destruct (gifFrames (source this0)) as [[|d ds]|e];
        cbn [bind] in E; try discriminate.
      rewrite extractFrame_fold in E. injection E as <-. exact R0.
    - unfold toBuffer in E.
      destruct (renderGIF_exact (text this) this) as [pxs [_ Er]].
      rewrite Er in E. cbn [bind] in E. injection E as _ <-. exact IH.
    - unfold toFile in E.
      destruct (renderGIF_exact (text this) this) as [pxs [_ Er]].
      rewrite Er in E. cbn [bind buffer] in E.
      destruct (getData _) as [b|]; [|discriminate].
      destruct (writeStreamToFile b path); [|discriminate].
      injection E as _ <-. exact IH. }
  split; [exact R|]. intros f px. unfold paintAttempt. rewrite R. reflexivity.
Qed.

(** X18. Inside a render the rows are wrapped once: wrapping leaves a
    row at least, and a turn of the loop that finds a row leaves the rows
    as they are, so that the guarded call of [createTextRows] in the loop
    is never made. *)
Theorem rows_wrapped_once (font : string) (this : Gif) :
  rows (createTextRows font this) <> [] /\
  forall lineHeight index (r : Loop) f,
    nth_error (extractedFrames (self r)) index = Some f ->
    rows (self r) <> [] ->
    ensureRows (emit (frameIndexUpdate index) (self r))
      = emit (frameIndexUpdate index) (self r) /\
    exists r',
      renderFrame lineHeight index r = Ok r' /\
      rows (self r') = rows (self r).
Proof.
  split.
  - apply createTextRows_not_nil.
  - intros lineHeight index r f E Hrows.
    assert (I : ensureRows (emit (frameIndexUpdate index) (self r))
                = emit (frameIndexUpdate index) (self r))
      by (apply ensureRows_id; exact Hrows).
    split; [exact I|].
    destruct (renderFrame_ok lineHeight index r f E)
      as [this' [calls [_ [Er [Rr _]]]]].
    eexists. split; [exact Er|]. cbn [self]. rewrite Rr, I. reflexivity.
Qed.

(** X12. Rows pile up from render to render: a render wraps the text
    again and puts the rows after those that are there, so that two
    renders in a row leave the rows of the text twice after the rows the
    instance had; only [setText] empties the rows. *)
Theorem renders_pile_up_rows (txt1 txt2 : string) (this : Gif) :
  exists this1 this2 lines,
    renderGIF txt1 this = Ok this1 /\
    renderGIF txt2 this1 = Ok this2 /\
    lines <> [] /\
    List.concat lines = split (text this) /\
    rows this1 = rows this ++ map rowOf lines /\
    rows this2 = rows this ++ map rowOf lines ++ map rowOf lines.
Proof.
  destruct (renderGIF_exact txt1 this) as [pxs1 [_ E1]].
  match type of E1 with _ = Ok ?t => set (this1 := t) in * end.
  destruct (renderGIF_exact txt2 this1) as [pxs2 [_ E2]].
  match type of E2 with _ = Ok ?t => set (this2 := t) in * end.
  exists this1, this2,
    (wrapLines (fontOf (textOptions this)) (width this) (split (text this)) []).
  split; [exact E1|]. split; [exact E2|]. split; [|split; [|split]].
  - destruct (wrapLines_head (fontOf (textOptions this)) (width this)
                (split (text this)) []) as [more [rest H]].
    rewrite H. discriminate.
  - apply wrapLines_concat.
  - unfold this1. cbn [rows]. apply createTextRows_wrapLines.
  - unfold this2. cbn [rows]. rewrite createTextRows_wrapLines.
    unfold this1. cbn [rows textOptions width text].
    rewrite createTextRows_wrapLines, <- app_assoc. reflexivity.
Qed.

(** ** The pixels that the encoder gets *)

(** The calls of the text drawing depend on the rows, the text, the
    canvas options and the text options only. *)
Lemma drawText_same (a b : Gif) (lineHeight : num) :
  rows a = rows b -> text a = text b ->
  canvasOptions a = canvasOptions b -> textOptions a = textOptions b ->
  drawText a lineHeight = drawText b lineHeight.
Proof.
  intros Hr Ht Hc Ho. rewrite !drawText_calls.
  unfold rowCalls, rowY, frameStyle. rewrite Hr, Ht, Hc, Ho. reflexivity.
Qed.

Lemma composite_snoc (this : Gif) (calls : list (@DrawCall num))
    (f : Frame) (l : list Frame) :
  forall surf,
    composite this calls surf (l ++ [f]) =
    (fst (composite this calls surf l)
       ++ [fold_left perform calls
             (paintedOver this f (snd (composite this calls surf l)))],
     if loose_eq (ExtractedFrame.disposal f) 2
     then blank (width this) (height this)
     else paintedOver this f (snd (composite this calls surf l))).
Proof.
  induction l as [|g l IH]; intros surf; simpl.
  - reflexivity.
  - rewrite IH. destruct (composite this calls _ l). reflexivity.
Qed.

Lemma composite_length (this : Gif) (calls : list (@DrawCall num))
    (l : list Frame) :
  forall surf, List.length (fst (composite this calls surf l)) = List.length l.
Proof.
  induction l as [|g l IH]; intros surf; simpl; [reflexivity|].
  specialize (IH (if loose_eq (ExtractedFrame.disposal g) 2
                  then blank (width this) (height this)
                  else paintedOver this g surf)).
  destruct (composite this calls _ l). simpl in *. rewrite IH. reflexivity.
Qed.

Lemma composite_same (a b : Gif) (calls : list (@DrawCall num))
    (l : list Frame) :
  retained a = retained b -> width a = width b -> height a = height b ->
  forall surf, composite a calls surf l = composite b calls surf l.
Proof.
  intros Hr Hw Hh. induction l as [|g l IH]; intros surf; simpl.
  - reflexivity.
  - unfold paintedOver, paintAttempt. rewrite Hr, Hw, Hh, IH. reflexivity.
Qed.

(** The loop over the frames hands to the encoder, for each stored frame
    in turn, the pixels that [composite] gives for that frame. *)
Lemma frame_loop_pixels (lineHeight : num) (this : Gif) (px : Pixels)
    (enc : list (EncoderCall num Pixels)) (calls : list (@DrawCall num)) :
  rows this <> [] ->
  drawText this lineHeight = Ok calls ->
  exists r,
    for_loop 0 (List.length (extractedFrames this)) (renderFrame lineHeight)
      (mkRender this px enc) = Ok r /\
    encoder r =
      enc ++ flat_map frameCalls
               (combine (extractedFrames this)
                  (fst (composite this calls px (extractedFrames this)))) /\
    surface r = snd (composite this calls px (extractedFrames this)).
Proof.
  intros Hrows Hcalls.
  remember (extractedFrames this) as frames eqn:Hframes.
  pose (state := fun (i : nat) (pxs : list Pixels) =>
    mkTextOnGif (source this) (numberOfFrames this) (retained this)
      ((if TextOptions.retain (textOptions this)
        then map writtenBack (combine (firstn i frames) pxs)
        else firstn i frames) ++ skipn i frames)
      (width this) (height this) (text this) (textOptions this)
      (buffer this) (canvasOptions this) (rows this) (console this)
      (emitted this ++ map frameIndexUpdate (seq 0 i))).
  pose (Inv := fun (i : nat) (r : Loop) =>
    exists pxs, List.length pxs = i /\
      self r = state i pxs /\
      encoder r = enc ++ flat_map frameCalls (combine (firstn i frames) pxs) /\
      composite this calls px (firstn i frames) = (pxs, surface r)).
  destruct (@for_loop_invariant Loop Inv (renderFrame lineHeight)
              (List.length frames) 0 (mkRender this px enc))
    as [r [Er [pxs [Lp [Es [Ee Ec]]]]]].
  - exists []. split; [reflexivity|]. split; [|split].
    + unfold state. cbn [self firstn skipn combine map seq].
      rewrite app_nil_r, Hframes.
      destruct (TextOptions.retain (textOptions this));
        destruct this; reflexivity.
    + cbn. rewrite app_nil_r. reflexivity.
    + reflexivity.
  - intros i t Hi [pxs [Lp [Es [Ee Ec]]]].
    destruct (nth_error_in_range frames i) as [f0 E0]; [lia|].
    assert (Li : List.length (firstn i frames) = i)
      by (rewrite length_firstn; lia).
    set (kept := if TextOptions.retain (textOptions this)
                 then map writtenBack (combine (firstn i frames) pxs)
                 else firstn i frames).
    assert (Lk : List.length kept = i).
    { unfold kept. destruct (TextOptions.retain (textOptions this)).
      - rewrite length_map, length_combine, Li, Lp. apply Nat.min_id.
      - exact Li. }
    assert (Ef : extractedFrames (self t)
                 = kept ++ f0 :: skipn (Datatypes.S i) frames).
    { rewrite Es. unfold state. cbn [extractedFrames].
      fold kept. rewrite (skipn_cons _ _ _ E0). reflexivity. }
    assert (Et : nth_error (extractedFrames (self t)) i = Some f0).
    { rewrite Ef, <- Lk. apply nth_error_middle. }
    set (this1 := emit (frameIndexUpdate i) (self t)).
    assert (E1 : this1 = ensureRows (emit (frameIndexUpdate i) (self t))).
    { symmetry. apply ensureRows_id. unfold this1. rewrite Es. exact Hrows. }
    assert (D1 : drawText this1 lineHeight = Ok calls).
    { rewrite <- Hcalls. apply drawText_same; unfold this1; rewrite Es;
        reflexivity. }
    assert (P : paintFrame (self t) i (surface t)
                = paintedOver this f0 (surface t)).
    { unfold paintFrame, paintedOver, paintAttempt. rewrite Et, Es.
      reflexivity. }
    assert (W : width this1 = width this /\ height this1 = height this)
      by (unfold this1; rewrite Es; split; reflexivity).
    destruct W as [Ww Wh].
    pose proof (renderFrame_exact lineHeight i t f0 this1 calls Et E1 D1)
      as R.
    cbv zeta in R. rewrite P, Ww, Wh in R.
    set (px' := fold_left perform calls (paintedOver this f0 (surface t)))
      in *.
    eexists. split; [exact R|].
    exists (pxs ++ [px']). split; [rewrite length_app; simpl; lia|].
    cbn [self encoder surface]. split; [|split].
    + unfold this1. rewrite Es. unfold state, emit.
      cbn [textOptions extractedFrames source numberOfFrames retained width
           height text buffer canvasOptions rows console emitted
           set_extractedFrames].
      rewrite seq_S, map_app, app_assoc. cbn [map Nat.add].
      rewrite (firstn_snoc _ _ _ E0).
      fold kept. rewrite (skipn_cons _ _ _ E0).
      pose proof (assign_index_middle kept (skipn (Datatypes.S i) frames) f0
                    (writtenBack (f0, px'))) as M.
      rewrite Lk in M. rewrite M. clear M.
      unfold kept.
      destruct (TextOptions.retain (textOptions this)).
      * rewrite combine_snoc, map_app by (rewrite Li, Lp; reflexivity).
        cbn [map set_extractedFrames source numberOfFrames retained width
             height text textOptions buffer canvasOptions rows console
             emitted].
        rewrite <- !app_assoc. reflexivity.
      * rewrite <- !app_assoc. reflexivity.
    + rewrite Ee, (firstn_snoc _ _ _ E0), combine_snoc, flat_map_app
        by (rewrite Li, Lp; reflexivity).
      rewrite <- app_assoc. cbn [flat_map]. rewrite app_nil_r. reflexivity.
    + rewrite (firstn_snoc _ _ _ E0), composite_snoc, Ec. reflexivity.
  - change (0 + List.length frames) with (List.length frames) in *.
    rewrite firstn_all in Ee, Ec.
    exists r. split; [exact Er|]. rewrite Ec. split; [exact Ee | reflexivity].
Qed.

(** C2. A render hands the stored frames to the encoder in the order of
    the store.  For the frame of index [i] it sets the delay of that
    frame, then its disposal, and then adds the pixels made from that
    very frame: the image stored with it painted over the surface that
    the frames before it left, with the text drawn on top.  [finish] is
    called once, after the last frame.  The store itself has the frames
    in the order of decoding. *)
Theorem frames_encoded_in_order (txt : string) (this : Gif) :
  let font := fontOf (textOptions this) in
  let lineHeight := measureText font "M" in
  (exists r calls,
     encodeFrames txt this = Ok r /\
     drawText (anchorY lineHeight (anchorX (createTextRows font this)))
       lineHeight = Ok calls /\
     let pxs :=
       fst (composite this calls (blank (width this) (height this))
              (extractedFrames this)) in
     List.length pxs = List.length (extractedFrames this) /\
     encoder r =
       openEncoder this
         ++ flat_map frameCalls (combine (extractedFrames this) pxs)
         ++ [Finish] /\
     List.length (filter isFinish (encoder r)) = 1) /\
  (forall frameData,
     extractedFrames (fold_left extractFrame frameData this) =
     extractedFrames this ++
     flat_map
       (fun d => match FrameData.getImage d with
                 | Some img =>
                     [ExtractedFrame.mk (AnImage img)
                        (FrameData.delay d * 10) (FrameData.disposal d)]
                 | None => []
                 end) frameData).
Proof.
  intros font lineHeight. split; [|intros; apply extractFrame_order].
  unfold encodeFrames. fold font. fold lineHeight.
  set (X := createTextRows font this).
  set (C := canvasOptions (anchorY lineHeight (anchorX X))).
  set (R := rows X).
  assert (H : anchorY lineHeight (anchorX X)
              = set_canvasOptions C (set_rows R this)).
  { rewrite (anchor_exact lineHeight X). fold C. f_equal.
    apply createTextRows_set_rows. }
  rewrite H.
  set (this' := set_canvasOptions C (set_rows R this)).
  assert (Hrows : rows this' <> []) by apply createTextRows_not_nil.
  pose proof (drawText_calls this' lineHeight) as D.
  match type of D with _ = Ok ?c => set (calls := c) in * end.
  destruct (frame_loop_pixels lineHeight this'
              (blank (width this) (height this)) (openEncoder this) calls
              Hrows D) as [r [El [Ee _]]].
  change (extractedFrames this') with (extractedFrames this) in El, Ee.
  rewrite (composite_same this' this) in Ee by reflexivity.
  change (extractedFrames this') with (extractedFrames this).
  rewrite El. cbn [bind].
  eexists. exists calls. split; [reflexivity|]. split; [exact D|].
  cbn [encoder]. split; [apply composite_length|]. split.
  - rewrite Ee, <- app_assoc. reflexivity.
  - rewrite Ee, !filter_app, no_finish_in_openEncoder, no_finish_in_frames.
    reflexivity.
Qed.

(** ** The outline of the text *)

Lemma strokes_leave_no_trace (st : Style.t num)
    (places : list (string * num * num)) :
  (forall s x y px, strokeText st s x y px = px) ->
  forall px,
    let calls :=
      flat_map (fun p => strokeAndFill st (fst (fst p)) (snd (fst p)) (snd p))
        places in
    fold_left perform calls px
      = fold_left perform (filter (fun c => negb (isStroke c)) calls) px.
Proof.
  intros Law. induction places as [|p places IH]; intros px; simpl.
  - reflexivity.
  - rewrite Law. apply IH.
Qed.

(** C5. On a canvas on which a stroke with the style ["transparent"]
    leaves the pixels as they are, the text drawing of a frame draws no
    outline when the stroke colour is the default ["transparent"]: the
    surface it leaves is the one that the fill calls alone leave.  In
    every case each text is filled, right after the stroke call made for
    it with the configured stroke colour as its style. *)
Theorem outline_only_with_stroke_colour (this : Gif) (lineHeight : num) :
  exists calls (places : list (string * num * num)),
    drawText this lineHeight = Ok calls /\
    calls =
      flat_map
        (fun p => strokeAndFill (frameStyle this) (fst (fst p))
                    (snd (fst p)) (snd p))
        places /\
    List.length places =
      (if Nat.eqb (List.length (rows this)) 1 then 1
       else List.length (rows this)) /\
    Style.strokeStyle (frameStyle this)
      = TextOptions.strokeColor (textOptions this) /\
    ((forall st s x y px,
        Style.strokeStyle st = "transparent" -> strokeText st s x y px = px) ->
     TextOptions.strokeColor (textOptions this) = "transparent" ->
     forall px,
       fold_left perform calls px
         = fold_left perform (filter (fun c => negb (isStroke c)) calls) px).
Proof.
  destruct (stroke_then_fill_for_every_row this lineHeight)
    as [places [D [S L]]].
  eexists. exists places. split; [exact D|]. split; [reflexivity|].
  split; [exact L|]. split; [exact S|].
  intros Law Hc px. apply strokes_leave_no_trace.
  intros s x y q. apply Law. rewrite S. exact Hc.
Qed.

(** ** A render that leaves no buffer *)


End Further.

(** A first word wider than the frame, then a second word. *)
Lemma rows_fit_or_single_witness :
  rows Sample.wideWord = [] /\
  exists lines,
    rows (createTextRows "32px calibri" Sample.wideWord) = map rowOf lines /\
    List.concat lines = split (text Sample.wideWord) /\
    Forall (fitsOrSingle "32px calibri" (width Sample.wideWord)) lines.
Proof.
  assert (H : rows Sample.wideWord = []) by reflexivity.
  split; [exact H|].
  exact (rows_fit_or_single "32px calibri" Sample.wideWord H).
Defined.

(** Three words, each on its row. *)
Lemma rows_break_when_needed_witness :
  rows Sample.threeFrames = [] /\
  exists lines,
    rows (createTextRows "32px calibri" Sample.threeFrames)
      = map rowOf lines /\
    List.concat lines = split (text Sample.threeFrames) /\
    breaksNeeded "32px calibri" (width Sample.threeFrames) lines.
Proof.
  assert (H : rows Sample.threeFrames = []) by reflexivity.
  split; [exact H|].
  exact (rows_break_when_needed "32px calibri" Sample.threeFrames H).
Defined.

(** The empty first row puts a space before the text. *)
Lemma rows_join_back_witness :
  rows Sample.wideWord = [] /\
  join (map TextRow.text (rows (createTextRows "32px calibri" Sample.wideWord)))
    = " abcdefghijklmnop q".
Proof.
  assert (H : rows Sample.wideWord = []) by reflexivity.
  split; [exact H|].
  exact (rows_join_back "32px calibri" Sample.wideWord H).
Defined.

(** The text "Hi" on a frame of 100 pixels. *)
Lemma single_row_is_text_witness :
  rows Sample.oneFrame = [] /\
  List.length (rows (createTextRows "32px calibri" Sample.oneFrame)) = 1 /\
  rows (createTextRows "32px calibri" Sample.oneFrame) = [TextRow.mk "Hi"].
Proof.
  assert (H : rows Sample.oneFrame = []) by reflexivity.
  assert (L : List.length (rows (createTextRows "32px calibri"
                                   Sample.oneFrame)) = 1) by reflexivity.
  split; [exact H|]. split; [exact L|].
  exact (single_row_is_text "32px calibri" Sample.oneFrame H L).
Defined.

(** Three decoded frames, the second not written: two are stored, three
    are counted, one error is logged. *)
Lemma setText_ok_witness :
  gifFrames (source (new Sample.holed : Sample.Gif))
    = Ok (Sample.frame 10 1 (Some 1)
            :: [Sample.frame 15 2 None; Sample.frame 10 1 (Some 3)]) /\
  exists this' : Sample.Gif,
    setText "Hi" None (new Sample.holed) = Ok this' /\
    extractedFrames this' =
      [ExtractedFrame.mk (AnImage 1) 100 1;
       ExtractedFrame.mk (AnImage 3) 100 1] /\
    numberOfFrames this' = 3 /\
    console this' = [PlainError "write failed"].
Proof.
  assert (H : gifFrames (source (new Sample.holed : Sample.Gif))
              = Ok (Sample.frame 10 1 (Some 1)
                      :: [Sample.frame 15 2 None;
                          Sample.frame 10 1 (Some 3)])) by reflexivity.
  split; [exact H|].
  eexists. split.
  - exact (setText_ok "Hi" None (new Sample.holed) _ _ H).
  - repeat split.
Defined.

(** A source that cannot be read, and a source without a frame. *)
Lemma setText_throws_witness :
  setText (DECODER := Sample.unreadable) "Hi" None
    (new Sample.holed : Sample.Gif) = Throw (PlainError "unreadable") /\
  setText "Hi" None (new [] : Sample.Gif)
    = Throw (TypeError "Cannot read properties of undefined").
Proof.
  split.
  - apply (proj1 (setText_throws (DECODER := Sample.unreadable) "Hi" None
                    (new Sample.holed : Sample.Gif))).
    reflexivity.
  - apply (proj2 (setText_throws "Hi" None (new [] : Sample.Gif))).
    reflexivity.
Defined.

(** Two calls on a source of three frames, two of them stored. *)
Lemma setText_twice_witness :
  gifFrames (source (new Sample.holed : Sample.Gif))
    = Ok (Sample.frame 10 1 (Some 1)
            :: [Sample.frame 15 2 None; Sample.frame 10 1 (Some 3)]) /\
  exists this1 this2 : Sample.Gif,
    setText "Hi" None (new Sample.holed) = Ok this1 /\
    setText "Ho" None this1 = Ok this2 /\
    List.length (extractedFrames this2) = 4 /\
    numberOfFrames this2 = 3.
Proof.
  assert (H : gifFrames (source (new Sample.holed : Sample.Gif))
              = Ok (Sample.frame 10 1 (Some 1)
                      :: [Sample.frame 15 2 None;
                          Sample.frame 10 1 (Some 3)])) by reflexivity.
  split; [exact H|].
  destruct (setText_twice (new Sample.holed : Sample.Gif) _ _
              "Hi" "Ho" None None H)
    as [this1 [this2 [E1 [E2 [F [N _]]]]]].
  exists this1, this2. split; [exact E1|]. split; [exact E2|].
  split; [rewrite F; reflexivity | exact N].
Defined.

(** The count after the first call. *)
Lemma noOfFrames_after_setText_witness :
  gifFrames (source (new Sample.holed : Sample.Gif))
    = Ok (Sample.frame 10 1 (Some 1)
            :: [Sample.frame 15 2 None; Sample.frame 10 1 (Some 3)]) /\
  exists this' : Sample.Gif,
    setText "Hi" None (new Sample.holed) = Ok this' /\
    noOfFrames this' = Resolved 3.
Proof.
  assert (H : gifFrames (source (new Sample.holed : Sample.Gif))
              = Ok (Sample.frame 10 1 (Some 1)
                      :: [Sample.frame 15 2 None;
                          Sample.frame 10 1 (Some 3)])) by reflexivity.
  split; [exact H|].
  destruct (proj2 (noOfFrames_after_setText "Hi" None
                     (new Sample.holed : Sample.Gif) _ _ H))
    as [this' [E [N _]]].
  exists this'. split; [exact E | exact N].
Defined.

(** A render of three frames without the retain option. *)
Lemma render_keeps_instance_witness :
  TextOptions.retain (textOptions Sample.threeFrames) = false /\
  exists this',
    renderGIF (ENCODER := Sample.recording) "" Sample.threeFrames = Ok this' /\
    extractedFrames this' = extractedFrames Sample.threeFrames.
Proof.
  assert (H : TextOptions.retain (textOptions Sample.threeFrames) = false)
    by reflexivity.
  split; [exact H|].
  destruct (render_keeps_instance (ENCODER := Sample.recording) ""
              Sample.threeFrames H) as [this' [E [F _]]].
  exists this'. split; [exact E | exact F].
Defined.

(** A render of one frame with the retain option. *)
Lemma retain_writes_back_witness :
  TextOptions.retain (textOptions Sample.retaining) = true /\
  exists r px,
    encodeFrames "" Sample.retaining = Ok r /\
    extractedFrames (self r) = [ExtractedFrame.mk (AnImageData px) 100 1].
Proof.
  assert (H : TextOptions.retain (textOptions Sample.retaining) = true)
    by reflexivity.
  split; [exact H|].
  destruct (retain_writes_back "" Sample.retaining H)
    as [r [pxs [E [L [_ [F _]]]]]].
  destruct pxs as [|px [|]]; try discriminate L.
  exists r, px. split; [exact E | exact F].
Defined.

(** The text placed at (7, 9). *)
Lemma explicit_position_wins_witness :
  TextOptions.positionX (textOptions Sample.placed) = Some (inject_Z 7) /\
  TextOptions.positionY (textOptions Sample.placed) = Some (inject_Z 9) /\
  exists this',
    renderGIF (ENCODER := Sample.recording) "" Sample.placed = Ok this' /\
    CanvasOptions.x (canvasOptions this') = inject_Z 7 /\
    CanvasOptions.y (canvasOptions this') = inject_Z 9.
Proof.
  assert (HX : TextOptions.positionX (textOptions Sample.placed)
               = Some (inject_Z 7)) by reflexivity.
  assert (HY : TextOptions.positionY (textOptions Sample.placed)
               = Some (inject_Z 9)) by reflexivity.
  split; [exact HX|]. split; [exact HY|].
  destruct (explicit_position_wins (ENCODER := Sample.recording) ""
              Sample.placed) as [this' [E [PX PY]]].
  exists this'. split; [exact E|].
  split; [exact (proj1 (PX _ HX)) | exact (proj1 (PY _ HY))].
Defined.

(** An instance made by the constructor and [setText]. *)
Lemma retained_never_set_witness :
  reachable (ENCODER := Sample.recording) Sample.oneFrame /\
  retained Sample.oneFrame = false.
Proof.
  assert (H : reachable (ENCODER := Sample.recording) Sample.oneFrame).
  { apply reach_setText
      with (this := (new [Sample.frame 10 1 (Some 1)] : Sample.Gif))
           (txt := "Hi") (options := None).
    - apply reach_new.
    - reflexivity. }
  split; [exact H|].
  exact (proj1 (retained_never_set (ENCODER := Sample.recording)
                  Sample.oneFrame H)).
Defined.

(** The first turn of the loop over three frames. *)
Lemma rows_wrapped_once_witness :
  rows (self (Sample.atLoop Sample.threeFrames)) <> [] /\
  exists r',
    renderFrame Sample.lineHeight 0 (Sample.atLoop Sample.threeFrames) = Ok r'
    /\ rows (self r') = rows (self (Sample.atLoop Sample.threeFrames)).
Proof.
  assert (H : rows (self (Sample.atLoop Sample.threeFrames)) <> [])
    by discriminate.
  split; [exact H|].
  destruct (proj2 (rows_wrapped_once "32px calibri" Sample.threeFrames)
              Sample.lineHeight 0 (Sample.atLoop Sample.threeFrames)
              (ExtractedFrame.mk (AnImage 1) 100 1) eq_refl H)
    as [_ [r' [E R]]].
  exists r'. split; [exact E | exact R].
Defined.

(** One frame, the stroke colour left at its default, on a canvas that
    draws nothing for a transparent stroke. *)
Lemma outline_only_with_stroke_colour_witness :
  (forall st s x y px,
     Style.strokeStyle st = "transparent" ->
     @strokeText Q nat Sample.Pixels Sample.clearStroke st s x y px = px) /\
  TextOptions.strokeColor
    (textOptions (self (Sample.atLoop Sample.oneFrame))) = "transparent" /\
  exists calls,
    drawText (self (Sample.atLoop Sample.oneFrame)) Sample.lineHeight
      = Ok calls /\
    fold_left (perform (CANVAS := Sample.clearStroke)) calls []
      = fold_left (perform (CANVAS := Sample.clearStroke))
          (filter (fun c => negb (isStroke c)) calls) [].
Proof.
  assert (Law : forall st s x y px,
            Style.strokeStyle st = "transparent" ->
            @strokeText Q nat Sample.Pixels Sample.clearStroke st s x y px
            = px).
  { intros st s x y px H. simpl. rewrite H. reflexivity. }
  assert (Hc : TextOptions.strokeColor
                 (textOptions (self (Sample.atLoop Sample.oneFrame)))
               = "transparent") by reflexivity.
  split; [exact Law|]. split; [exact Hc|].
  destruct (outline_only_with_stroke_colour (CANVAS := Sample.clearStroke)
              (self (Sample.atLoop Sample.oneFrame)) Sample.lineHeight)
    as [calls [places [D [_ [_ [_ F]]]]]].
  exists calls. split; [exact D|]. exact (F Law Hc []).
Defined.

